(** * Auth flow, response normalisation and todo store of the NestJS template

    A shallow embedding of
    - [src/ResponseInterceptor.ts]   (the global response interceptor),
    - [src/users/users.service.ts]   (registration and credential lookup),
    - [src/auth/auth.service.ts]     (login and refresh),
    - [src/todos/todos.service.ts]   (todo lookup, update and removal),
    together with the theorems that relate them to the written specification.
    The services run in a state and error monad over the two tables and the
    clock; the JWT service and bcrypt are dependencies and stay parameters,
    with the token issuer of the specification as one instance.

    JavaScript values are modelled by [Js.JsValue]; thrown failures are
    JavaScript values as well, since [throw] accepts any value and the
    interceptor reads them through optional chaining. *)

From Stdlib Require Import ZArith List String Ascii Bool Lia.
Import ListNotations.
Open Scope string_scope.
Open Scope Z_scope.
Set Warnings "-register-all".

(** ** Outcomes of a call: a returned value or a thrown one *)

Inductive Result (E A : Type) : Type :=
| Ok (a : A)
| Throw (e : E).
Arguments Ok {E A} a.
Arguments Throw {E A} e.

Definition is_ok {E A} (r : Result E A) : bool :=
  match r with Ok _ => true | Throw _ => false end.

(** ** JavaScript values *)

Module Js.

(** The values a handler can return or a component can throw.  Numbers are
    the integers plus [NaN]: the code only tests them for truthiness and
    copies them.  An object is its list of readable properties (own and
    inherited alike), in insertion order. *)
Inductive JsValue : Type :=
| JsUndefined
| JsNull
| JsBool (b : bool)
| JsNumber (n : Z)
| JsNaN
| JsString (s : string)
| JsArray (items : list JsValue)
| JsObject (props : list (string * JsValue)).

(** ToBoolean. *)
Definition truthy (v : JsValue) : bool :=
  match v with
  | JsUndefined | JsNull | JsNaN => false
  | JsBool b => b
  | JsNumber n => negb (n =? 0)
  | JsString s => negb (s =? "")%string
  | JsArray _ | JsObject _ => true
  end.

(** [a || b] *)
Definition js_or (a b : JsValue) : JsValue := if truthy a then a else b.

(** [a && b] *)
Definition js_and (a b : JsValue) : JsValue := if truthy a then b else a.

(** [!a] *)
Definition js_not (a : JsValue) : JsValue := JsBool (negb (truthy a)).

Fixpoint lookup (k : string) (props : list (string * JsValue)) : option JsValue :=
  match props with
  | [] => None
  | (k', v) :: rest => if (k =? k')%string then Some v else lookup k rest
  end.

(** Is the value [null] or [undefined]? *)
Definition nullish (v : JsValue) : bool :=
  match v with
  | JsUndefined | JsNull => true
  | _ => false
  end.

(** Does the value carry a property [k]?  Primitives and arrays carry none of
    the property names read in this program ([message], [data], [meta],
    [status], [response], [error], [name]). *)
Definition has (v : JsValue) (k : string) : bool :=
  match v with
  | JsObject props => match lookup k props with Some _ => true | None => false end
  | _ => false
  end.

(** The value of [v.k] for a non-nullish [v]. *)
Definition prop (v : JsValue) (k : string) : JsValue :=
  match v with
  | JsObject props => match lookup k props with Some x => x | None => JsUndefined end
  | _ => JsUndefined
  end.

(** The [TypeError] V8 throws for a property read on [null] or [undefined]. *)
Definition type_name (v : JsValue) : string :=
  match v with
  | JsNull => "null"
  | _ => "undefined"
  end.

Definition TypeError (msg : string) : JsValue :=
  JsObject [("name", JsString "TypeError"); ("message", JsString msg)].

Definition cannot_read (v : JsValue) (k : string) : JsValue :=
  TypeError ("Cannot read properties of " ++ type_name v ++ " (reading '" ++ k ++ "')").

(** [v.k]: throws on [null] and [undefined]. *)
Definition get (v : JsValue) (k : string) : Result JsValue JsValue :=
  if nullish v then Throw (cannot_read v k) else Ok (prop v k).

(** [v?.k]: [undefined] on [null] and [undefined]. *)
Definition get_opt (v : JsValue) (k : string) : JsValue :=
  if nullish v then JsUndefined else prop v k.

Lemma get_opt_prop v k : nullish v = false -> get_opt v k = prop v k.
Proof. unfold get_opt. intros ->. reflexivity. Qed.

Lemma get_ok v k : nullish v = false -> get v k = Ok (prop v k).
Proof. unfold get. intros ->. reflexivity. Qed.

Lemma nullish_false v : nullish v = false <-> v <> JsNull /\ v <> JsUndefined.
Proof.
  destruct v; simpl; split; intros H;
    try discriminate; try (split; discriminate); try reflexivity;
    destruct H; congruence.
Qed.

Lemma has_false_prop v k : has v k = false -> prop v k = JsUndefined.
Proof.
  destruct v; simpl; try reflexivity.
  destruct (lookup k props); [discriminate | reflexivity].
Qed.

End Js.
Import Js.

(** ** The response interceptor ([src/ResponseInterceptor.ts]) *)

Module ResponseInterceptor.

(** What [context.switchToHttp().getResponse()] exposes to the interceptor:
    the status already set on the response and its [locals] object. *)
Record HttpResponse : Type := {
  statusCode : Z;
  locals : list (string * JsValue)
}.

Definition HttpStatus_OK : Z := 200.
Definition HttpStatus_INTERNAL_SERVER_ERROR : Z := 500.

(** The object literal returned by the [map] callback. *)
Record SuccessEnvelope : Type := {
  s_statusCode : JsValue;
  s_message : JsValue;
  s_data : JsValue;
  s_meta : JsValue
}.

(** The object literal thrown by the [catchError] callback. *)
Record ErrorEnvelope : Type := {
  e_statusCode : JsValue;
  e_message : JsValue;
  e_error : JsValue;
  e_data : JsValue
}.

(** The callback given to [map]: the success path.  [data.message] is a plain
    property read and throws on [null] and [undefined]; every other read uses
    optional chaining. *)
Definition map_callback (res : HttpResponse) (data : JsValue)
  : Result JsValue SuccessEnvelope :=
  let message := js_or (prop (JsObject (locals res)) "message") (JsString "Success") in
  let statusCode := js_or (JsNumber (statusCode res)) (JsNumber HttpStatus_OK) in
  match get data "message" with
  | Throw e => Throw e
  | Ok data_message =>
      Ok {| s_statusCode := statusCode;
            s_message := js_or data_message message;
            s_data :=
              if truthy (get_opt data "data") then get_opt data "data"
              else if truthy (js_and (get_opt data "message")
                                     (js_not (get_opt data "data")))
                   then JsUndefined
                   else data;
            s_meta := get_opt data "meta" |}
  end.

(** The callback given to [catchError]: the failure path. *)
Definition catchError_callback (error : JsValue) : ErrorEnvelope :=
  let status := js_or (get_opt error "status") (JsNumber HttpStatus_INTERNAL_SERVER_ERROR) in
  let message :=
    js_or (js_or (get_opt (get_opt error "response") "message") (get_opt error "message"))
          (JsString "Internal server error") in
  {| e_statusCode := status;
     e_message := message;
     e_error :=
       js_or (js_or (get_opt (get_opt error "response") "error") (get_opt error "name"))
             (JsString "Error");
     e_data := JsNull |}.

(** [next.handle().pipe(map(..), catchError(..))] on a handler that returns
    or throws once: a throw inside [map] reaches [catchError] too. *)
Definition intercept (res : HttpResponse) (handled : Result JsValue JsValue)
  : Result ErrorEnvelope SuccessEnvelope :=
  match handled with
  | Throw error => Throw (catchError_callback error)
  | Ok data =>
      match map_callback res data with
      | Ok envelope => Ok envelope
      | Throw error => Throw (catchError_callback error)
      end
  end.

(** *** The envelopes as the specification words them *)

(** Success envelope of the specification: a field counts when it is
    present on the result. *)
Definition spec_success (res : HttpResponse) (data : JsValue) : SuccessEnvelope :=
  {| s_statusCode := JsNumber (if statusCode res =? 0 then 200 else statusCode res);
     s_message := if has data "message" then prop data "message" else JsString "Success";
     s_data :=
       if has data "data" then prop data "data"
       else if has data "message" then JsUndefined
       else data;
     s_meta := get_opt data "meta" |}.

(** Error envelope of the specification: a field counts when it is present
    on the failure. *)
Definition spec_error (error : JsValue) : ErrorEnvelope :=
  let response := get_opt error "response" in
  {| e_statusCode := if has error "status" then prop error "status" else JsNumber 500;
     e_message :=
       if has response "message" then prop response "message"
       else if has error "message" then prop error "message"
       else JsString "Internal server error";
     e_error :=
       if has response "error" then prop response "error"
       else if has error "name" then prop error "name"
       else JsString "Error";
     e_data := JsNull |}.

(** The first truthy value of a chain [a || b || fallback]. *)
Definition first_truthy (a b fallback : JsValue) : JsValue :=
  if truthy a then a else if truthy b then b else fallback.

Lemma js_or_chain a b c : js_or (js_or a b) c = first_truthy a b c.
Proof.
  unfold js_or, first_truthy.
  destruct (truthy a) eqn:Ha; [rewrite Ha; reflexivity|].
  destruct (truthy b); reflexivity.
Qed.

Lemma js_or_chain_right a b c : js_or a (js_or b c) = first_truthy a b c.
Proof. unfold js_or, first_truthy. reflexivity. Qed.

End ResponseInterceptor.

(** ** Failures of the framework

    [@nestjs/common] builds an [HttpException] from a message string with a
    response body [{message, error, statusCode}], a [status], the [message]
    and the class [name]. *)

Module Nest.

Definition HttpException (name : string) (status : Z) (description message : string)
  : JsValue :=
  JsObject [("response", JsObject [("message", JsString message);
                                   ("error", JsString description);
                                   ("statusCode", JsNumber status)]);
            ("status", JsNumber status);
            ("message", JsString message);
            ("name", JsString name)].

Definition NotFoundException (message : string) : JsValue :=
  HttpException "NotFoundException" 404 "Not Found" message.

Definition UnauthorizedException (message : string) : JsValue :=
  HttpException "UnauthorizedException" 401 "Unauthorized" message.

End Nest.
Import Nest.

(** ** Failures of the repository

    [typeorm] refuses an [update] whose values set no column: the query
    builder throws [UpdateValuesMissingError] before any statement runs. *)

Module TypeOrm.

Definition double_quote : string := String (Ascii.ascii_of_nat 34) "".

Definition UpdateValuesMissingError : JsValue :=
  JsObject
    [("name", JsString "UpdateValuesMissingError");
     ("message",
      JsString ("Cannot perform update query because update values are not defined. Call "
                ++ double_quote ++ "qb.set(...)" ++ double_quote
                ++ " method to specify updated values."))].

End TypeOrm.
Import TypeOrm.

(** ** Entities and configuration *)

Module UserEntity.
(** [src/users/entities/user.entity.ts] *)
Record t : Type := {
  id : Z;
  name : string;
  email : string;
  password : string
}.
End UserEntity.

Module TodoEntity.
(** [src/todos/entities/todo.entity.ts] *)
Record t : Type := {
  id : Z;
  title : string;
  description : string;
  user_id : Z;
  created_at : Z
}.
End TodoEntity.

Module TokenPayload.
(** The object literal [{ id, email }] that is signed; also the identity of
    a caller. *)
Record t : Type := {
  id : Z;
  email : string
}.
End TokenPayload.

(** [src/config/config.interface.ts], without the database block. *)
Record ConfigProps : Type := {
  api_key : string;
  refresh_secret : string;
  access_secret : string
}.

(** The options object of [jwtService.sign]. *)
Record SignOptions : Type := {
  secret : string;
  expiresIn : string
}.

(** The fields of [CreateUserDto] that [UsersService.create] spreads into
    the new row (the columns of the entity other than the generated id). *)
Record CreateUserDto : Type := {
  create_name : string;
  create_email : string;
  create_password : string
}.

(** The object literal [{ message }] the mutations return. *)
Definition message_object (message : string) : JsValue :=
  JsObject [("message", JsString message)].

(** [src/auth/dto/login.dto.ts] as [AuthService.login] reads it. *)
Record LoginDto : Type := {
  login_email : string;
  login_password : string
}.

(** ** The world the services run in *)

(** The two tables, the [AUTO_INCREMENT] counter of the todos table (the id
    its next row gets: it only goes up, also when rows are deleted), the
    clock, and two traces: the calls made to [jwtService.sign] (which tokens
    an operation issues) and the lines written by [console.log]. *)
Record World : Type := {
  now : Z;
  usersRepository : list UserEntity.t;
  todoRepository : list TodoEntity.t;
  todos_auto_increment : Z;
  issued : list (TokenPayload.t * SignOptions);
  console : list (list JsValue)
}.

Definition with_users (w : World) (l : list UserEntity.t) : World :=
  {| now := now w; usersRepository := l;
     todoRepository := todoRepository w;
     todos_auto_increment := todos_auto_increment w;
     issued := issued w; console := console w |}.

Definition with_issued (w : World) (l : list (TokenPayload.t * SignOptions)) : World :=
  {| now := now w; usersRepository := usersRepository w;
     todoRepository := todoRepository w;
     todos_auto_increment := todos_auto_increment w;
     issued := l; console := console w |}.

Definition with_console (w : World) (l : list (list JsValue)) : World :=
  {| now := now w; usersRepository := usersRepository w;
     todoRepository := todoRepository w;
     todos_auto_increment := todos_auto_increment w;
     issued := issued w; console := l |}.

Definition with_todos (w : World) (l : list TodoEntity.t) : World :=
  {| now := now w; usersRepository := usersRepository w;
     todoRepository := l;
     todos_auto_increment := todos_auto_increment w;
     issued := issued w; console := console w |}.

(** The todos table after an insert: one more row, and the counter moved
    past the id it gave. *)
Definition with_inserted_todo (w : World) (todo : TodoEntity.t) : World :=
  {| now := now w; usersRepository := usersRepository w;
     todoRepository := todoRepository w ++ [todo];
     todos_auto_increment := todos_auto_increment w + 1;
     issued := issued w; console := console w |}.

(** A computation that reads and writes the world and returns or throws. *)
Definition M (A : Type) : Type := World -> Result JsValue A * World.

Definition ret {A} (a : A) : M A := fun w => (Ok a, w).

Definition throw {A} (e : JsValue) : M A := fun w => (Throw e, w).

Definition bind {A B} (m : M A) (k : A -> M B) : M B :=
  fun w =>
    match m w with
    | (Ok a, w') => k a w'
    | (Throw e, w') => (Throw e, w')
    end.

(** [try { body } catch (error) { handler }] *)
Definition try_catch {A} (body : M A) (handler : JsValue -> M A) : M A :=
  fun w =>
    match body w with
    | (Ok a, w') => (Ok a, w')
    | (Throw e, w') => handler e w'
    end.

Notation "x <- c1 ;; c2" := (bind c1 (fun x => c2))
  (at level 61, c1 at next level, right associativity).
Notation "c1 ;;; c2" := (bind c1 (fun _ => c2))
  (at level 61, right associativity).

Definition console_log (args : list JsValue) : M unit :=
  fun w => (Ok tt, with_console w (console w ++ [args])).

(** ** The JWT service as the code uses it

    [@nestjs/jwt] is a dependency: the services are written against its two
    methods, at a given clock. *)
Class JwtService (Token : Type) : Type := {
  sign : Z -> TokenPayload.t -> SignOptions -> Result JsValue Token;
  verify : Z -> Token -> string -> Result JsValue TokenPayload.t
}.

(** ** The result objects of the auth service *)

Module LoginResult.
(** The object [{ accessToken, refreshToken }] returned by [login]. *)
Record t (Token : Type) : Type := {
  accessToken : Token;
  refreshToken : Token
}.
Arguments accessToken {Token} _.
Arguments refreshToken {Token} _.
End LoginResult.

Module RefreshResult.
(** The object [{ accessToken }] returned by [refreshToken]. *)
Record t (Token : Type) : Type := {
  accessToken : Token
}.
Arguments accessToken {Token} _.
End RefreshResult.

(** ** [src/users/users.service.ts] *)

Module UsersService.
Section WithHasher.

(** [bcrypt.hash(plaintext, rounds)] *)
Variable bcrypt_hash : string -> Z -> string.

(** [bcrypt.compare(plaintext, hash)] *)
Variable bcrypt_compare : string -> string -> bool.

(** The id [AUTO_INCREMENT] gives the next row. *)
Definition next_id (rows : list UserEntity.t) : Z :=
  1 + fold_right Z.max 0 (map UserEntity.id rows).

(** [usersRepository.save(usersRepository.create(fields))]: one more row;
    the table has no constraint besides the primary key. *)
Definition save (name email password : string) : M UserEntity.t :=
  fun w =>
    let user := {| UserEntity.id := next_id (usersRepository w);
                   UserEntity.name := name;
                   UserEntity.email := email;
                   UserEntity.password := password |} in
    (Ok user, with_users w (usersRepository w ++ [user])).

Definition create (createUserDto : CreateUserDto) : M JsValue :=
  let hashedPassword := bcrypt_hash (create_password createUserDto) 10 in
  save (create_name createUserDto) (create_email createUserDto) hashedPassword ;;;
  ret (message_object "User created successfully").

(** [usersRepository.findOne({ where: { email } })]: the first row with that
    email, [null] when there is none. *)
Definition findOne_email (email : string) : M (option UserEntity.t) :=
  fun w => (Ok (find (fun u => (UserEntity.email u =? email)%string) (usersRepository w)), w).

(** [usersRepository.findOne({ where: { id } })] *)
Definition findOne_id (id : Z) : M (option UserEntity.t) :=
  fun w => (Ok (find (fun u => UserEntity.id u =? id) (usersRepository w)), w).

Definition findUserByEmailAndPassword (email password : string) : M UserEntity.t :=
  user <- findOne_email email ;;
  match user with
  | None => throw (NotFoundException "User not found")
  | Some user =>
      if bcrypt_compare password (UserEntity.password user)
      then ret user
      else throw (UnauthorizedException "Invalid password")
  end.

Definition findUserById (id : Z) : M UserEntity.t :=
  user <- findOne_id id ;;
  match user with
  | None => throw (NotFoundException "User not found")
  | Some user => ret user
  end.

End WithHasher.
End UsersService.

(** ** [src/auth/auth.service.ts] *)

Module AuthService.
Section WithServices.

Context {Token : Type} {jwtService : JwtService Token}.
Variable bcrypt_compare : string -> string -> bool.

(** [configService.get(..)] reads this record. *)
Variable configService : ConfigProps.

(** [this.jwtService.sign(payload, options)], recorded in the trace. *)
Definition jwtService_sign (payload : TokenPayload.t) (options : SignOptions) : M Token :=
  fun w =>
    match sign (now w) payload options with
    | Ok token => (Ok token, with_issued w (issued w ++ [(payload, options)]))
    | Throw e => (Throw e, w)
    end.

(** [this.jwtService.verify(token, { secret })] *)
Definition jwtService_verify (token : Token) (secret : string) : M TokenPayload.t :=
  fun w => (verify (now w) token secret, w).

(** The payload literal [{ id: user.id, email: user.email }]. *)
Definition payload_of (user : UserEntity.t) : TokenPayload.t :=
  {| TokenPayload.id := UserEntity.id user;
     TokenPayload.email := UserEntity.email user |}.

Definition access_options : SignOptions :=
  {| secret := access_secret configService; expiresIn := "1m" |}.

Definition refresh_options : SignOptions :=
  {| secret := refresh_secret configService; expiresIn := "7d" |}.

Definition login (loginDto : LoginDto) : M (LoginResult.t Token) :=
  user <- UsersService.findUserByEmailAndPassword bcrypt_compare
            (login_email loginDto) (login_password loginDto) ;;
  let payload := payload_of user in
  accessToken <- jwtService_sign payload access_options ;;
  refreshToken <- jwtService_sign payload refresh_options ;;
  ret {| LoginResult.accessToken := accessToken;
         LoginResult.refreshToken := refreshToken |}.

Definition refreshToken (refreshToken : Token) : M (RefreshResult.t Token) :=
  try_catch
    (payload <- jwtService_verify refreshToken (refresh_secret configService) ;;
     user <- UsersService.findUserById (TokenPayload.id payload) ;;
     accessToken <- jwtService_sign (payload_of user) access_options ;;
     ret {| RefreshResult.accessToken := accessToken |})
    (fun error =>
       console_log [error; JsString "error"] ;;;
       throw (UnauthorizedException "Invalid refresh token")).

End WithServices.
End AuthService.

(** ** [src/todos/dto/create-todo.dto.ts] *)

Module CreateTodoDto.
Record t : Type := {
  title : string;
  description : string
}.
End CreateTodoDto.

(** ** [src/todos/todos.service.ts] *)

Module TodosService.
Section WithDto.

(** [UpdateTodoDto] is declared in [src/todos/dto/update-todo.dto.ts]; the
    service only hands it to the repository, whose [update] writes its
    columns into a row. *)
Variable UpdateTodoDto : Type.
Variable assign : UpdateTodoDto -> TodoEntity.t -> TodoEntity.t.

(** Does the dto set at least one column?  ([{}] sets none.) *)
Variable writes_column : UpdateTodoDto -> bool.

(** [todoRepository.findOne({ where: { id } })] *)
Definition findOne_id (id : Z) : M (option TodoEntity.t) :=
  fun w => (Ok (find (fun t => TodoEntity.id t =? id) (todoRepository w)), w).

(** [todoRepository.find({ where: { user_id } })] *)
Definition find_user_id (user_id : Z) : M (list TodoEntity.t) :=
  fun w => (Ok (filter (fun t => TodoEntity.user_id t =? user_id) (todoRepository w)), w).

(** [todoRepository.update(id, updateTodoDto)]: [UPDATE todos SET .. WHERE id = ?]
    when the dto sets a column; with no column to set it throws and no
    statement runs. *)
Definition repository_update (id : Z) (updateTodoDto : UpdateTodoDto) : M unit :=
  fun w =>
    if writes_column updateTodoDto
    then
      (Ok tt,
       with_todos w
         (map (fun t => if TodoEntity.id t =? id then assign updateTodoDto t else t)
              (todoRepository w)))
    else (Throw UpdateValuesMissingError, w).

(** [todoRepository.delete(id)]: [DELETE FROM todos WHERE id = ?] *)
Definition repository_delete (id : Z) : M unit :=
  fun w =>
    (Ok tt,
     with_todos w (filter (fun t => negb (TodoEntity.id t =? id)) (todoRepository w))).

Definition findAll (user : TokenPayload.t) : M (list TodoEntity.t) :=
  find_user_id (TokenPayload.id user).

Definition findOne (id : Z) : M TodoEntity.t :=
  todo <- findOne_id id ;;
  match todo with
  | None => throw (NotFoundException "Todo not found")
  | Some todo => ret todo
  end.

Definition update (id : Z) (updateTodoDto : UpdateTodoDto) : M JsValue :=
  todo <- findOne_id id ;;
  match todo with
  | None => throw (NotFoundException "Todo not found")
  | Some _ =>
      repository_update id updateTodoDto ;;;
      ret (message_object "Todo updated successfully")
  end.

Definition remove (id : Z) : M JsValue :=
  todo <- findOne_id id ;;
  match todo with
  | None => throw (NotFoundException "Todo not found")
  | Some _ =>
      repository_delete id ;;;
      ret (message_object "Todo deleted successfully")
  end.

(** [todoRepository.save({ title, description, user_id })]: one more row,
    with the id the table's [AUTO_INCREMENT] counter holds and [created_at]
    set by the table's default; the counter moves on. *)
Definition repository_save (title description : string) (user_id : Z) : M TodoEntity.t :=
  fun w =>
    let todo := {| TodoEntity.id := todos_auto_increment w;
                   TodoEntity.title := title;
                   TodoEntity.description := description;
                   TodoEntity.user_id := user_id;
                   TodoEntity.created_at := now w |} in
    (Ok todo, with_inserted_todo w todo).

Definition create (createTodoDto : CreateTodoDto.t) (user : TokenPayload.t) : M JsValue :=
  repository_save (CreateTodoDto.title createTodoDto)
    (CreateTodoDto.description createTodoDto) (TokenPayload.id user) ;;;
  ret (message_object "Todo created successfully").

End WithDto.
End TodosService.

(** ** [src/auth/auth.controller.ts] *)

Module AuthController.

(** [s.split(' ')]: the pieces of [s] between single spaces; never empty. *)
Fixpoint split_space (s : string) : list string :=
  match s with
  | EmptyString => [""]
  | String c rest =>
      if Ascii.eqb c " "
      then "" :: split_space rest
      else match split_space rest with
           | piece :: pieces => String c piece :: pieces
           | [] => [String c ""]
           end
  end.

(** [refreshToken?.split(' ')?.[1]] on the [Refresh-Token] header, which is
    a string or [undefined]. *)
Definition bearer_token (header : option string) : option string :=
  match header with
  | None => None
  | Some refreshToken => nth_error (split_space refreshToken) 1
  end.

Section WithService.

(** The token handed to the service is a string or [undefined]. *)
Context {jwtService : JwtService (option string)}.
Variable configService : ConfigProps.

Definition refreshToken (header : option string) : M (RefreshResult.t (option string)) :=
  let token := bearer_token header in
  AuthService.refreshToken configService token.

End WithService.
End AuthController.

(** ** The token issuer and verifier of the specification *)

Module TokenModel.

(** The three ways verification fails in the specification. *)
Inductive VerifyFailure : Type :=
| InvalidSignature
| Expired
| Malformed.

(** The error objects [jsonwebtoken] throws for them. *)
Definition failure (f : VerifyFailure) : JsValue :=
  match f with
  | InvalidSignature =>
      JsObject [("name", JsString "JsonWebTokenError"); ("message", JsString "invalid signature")]
  | Expired =>
      JsObject [("name", JsString "TokenExpiredError"); ("message", JsString "jwt expired")]
  | Malformed =>
      JsObject [("name", JsString "JsonWebTokenError"); ("message", JsString "jwt malformed")]
  end.

(** Modelled from the spec: the bearer strings of section 4.2, whose issuer
    and verifier are [JwtService] of [@nestjs/jwt] and not among the sources.
    A string is either what [issue] produced for a payload, under a secret,
    with an issue time and an expiry, or anything else. *)
Inductive Token : Type :=
| Signed (payload : TokenPayload.t) (iat exp : Z) (key : string)
| Garbage (raw : string).

Definition digit (c : ascii) : option Z :=
  let n := Z.of_nat (nat_of_ascii c) in
  if (48 <=? n) && (n <=? 57) then Some (n - 48) else None.

(** Seconds in a unit suffix of a time span. *)
Definition unit_seconds (u : string) : option Z :=
  if (u =? "s")%string then Some 1
  else if (u =? "m")%string then Some 60
  else if (u =? "h")%string then Some 3600
  else if (u =? "d")%string then Some 86400
  else None.

Fixpoint span_seconds (s : string) (acc : option Z) : option Z :=
  match s with
  | EmptyString => None
  | String c rest =>
      match digit c with
      | Some d => span_seconds rest (Some (10 * match acc with Some n => n | None => 0 end + d))
      | None =>
          match acc, unit_seconds s with
          | Some n, Some u => Some (n * u)
          | _, _ => None
          end
      end
  end.

(** Modelled from the spec: the ttl of section 4.2 as [expiresIn] writes it,
    a count and a unit (['1m'], ['7d']), in seconds. *)
Definition ttl_seconds (expiresIn : string) : option Z := span_seconds expiresIn None.

(** Modelled from the spec: [issue(payload, secret, ttl) -> token] of section
    4.2, at clock [now]: the payload signed with [secret], expiring [ttl]
    seconds after [now]. *)
Definition issue (now : Z) (payload : TokenPayload.t) (secret : string) (ttl : Z) : Token :=
  Signed payload now (now + ttl) secret.

(** Modelled from the spec: [verify(token, secret) -> payload |
    fails(InvalidSignature | Expired | Malformed)] of section 4.2, at clock
    [now]: a token is valid only under the secret that signed it and only
    before its expiry. *)
Definition check (now : Z) (token : Token) (secret : string)
  : Result JsValue TokenPayload.t :=
  match token with
  | Garbage _ => Throw (failure Malformed)
  | Signed payload _ exp key =>
      if (key =? secret)%string
      then if exp <=? now then Throw (failure Expired) else Ok payload
      else Throw (failure InvalidSignature)
  end.

(** [jwtService.sign(payload, { secret, expiresIn })] through [issue]. *)
Definition sign_with (now : Z) (payload : TokenPayload.t) (options : SignOptions)
  : Result JsValue Token :=
  match ttl_seconds (expiresIn options) with
  | Some ttl => Ok (issue now payload (secret options) ttl)
  | None => Throw (TypeError "invalid expiresIn option")
  end.

#[export] Instance service : JwtService Token := {| sign := sign_with; verify := check |}.

End TokenModel.

(** * Theorems *)

(** ** The response interceptor *)

Module ResponseInterceptorProofs.
Import ResponseInterceptor.

(** A response whose status is the default and whose [locals] is empty. *)
Definition plain_response : HttpResponse := {| statusCode := 200; locals := [] |}.

(** A handler result that carries a falsy [data] field: a count of zero. *)
Definition zero_count : JsValue := JsObject [("data", JsNumber 0)].

(** The result of [UsersService.create]. *)
Definition user_created : JsValue :=
  JsObject [("message", JsString "User created successfully")].

(** A failure whose status is present and zero, as HTTP clients report a
    request that never got an answer. *)
Definition no_answer : JsValue :=
  JsObject [("status", JsNumber 0); ("message", JsString "Network Error")].

Example zero_count_emitted_whole :
  map_callback plain_response zero_count
  = Ok {| s_statusCode := JsNumber 200; s_message := JsString "Success";
          s_data := zero_count; s_meta := JsUndefined |}.
Proof. reflexivity. Qed.

Example zero_count_specified :
  spec_success plain_response zero_count
  = {| s_statusCode := JsNumber 200; s_message := JsString "Success";
       s_data := JsNumber 0; s_meta := JsUndefined |}.
Proof. reflexivity. Qed.

Example empty_message_defaults :
  map_callback plain_response (JsObject [("message", JsString "")])
  = Ok {| s_statusCode := JsNumber 200; s_message := JsString "Success";
          s_data := JsObject [("message", JsString "")]; s_meta := JsUndefined |}.
Proof. reflexivity. Qed.

Example message_hides_falsy_data :
  map_callback plain_response
    (JsObject [("message", JsString "counted"); ("data", JsNumber 0)])
  = Ok {| s_statusCode := JsNumber 200; s_message := JsString "counted";
          s_data := JsUndefined; s_meta := JsUndefined |}.
Proof. reflexivity. Qed.

(** C7, as stated, fails: a result that carries a [data] field holding [0]
    is emitted whole, where the stated rule emits the field. *)
Lemma success_envelope_presence_counterexample :
  map_callback plain_response zero_count
  <> Ok (spec_success plain_response zero_count).
Proof. vm_compute. intros H. discriminate H. Qed.

Lemma status_default res :
  js_or (JsNumber (statusCode res)) (JsNumber HttpStatus_OK)
  = JsNumber (if statusCode res =? 0 then 200 else statusCode res).
Proof.
  unfold js_or, HttpStatus_OK. simpl.
  destruct (statusCode res =? 0); reflexivity.
Qed.

Lemma data_rule data :
  nullish data = false ->
  (if truthy (get_opt data "data") then get_opt data "data"
   else if truthy (js_and (get_opt data "message") (js_not (get_opt data "data")))
        then JsUndefined else data)
  = (if truthy (prop data "data") then prop data "data"
     else if truthy (prop data "message") then JsUndefined else data).
Proof.
  intros Hn. rewrite !(get_opt_prop _ _ Hn).
  destruct (truthy (prop data "data")) eqn:Hd; [reflexivity|].
  unfold js_and, js_not. rewrite Hd.
  destruct (truthy (prop data "message")) eqn:Hm; simpl; [reflexivity|].
  rewrite Hm. reflexivity.
Qed.

(** On a non-nullish result the guardless read succeeds and the callback
    returns. *)
Lemma map_callback_returns (res : HttpResponse) (data : JsValue) :
  nullish data = false -> is_ok (map_callback res data) = true.
Proof. intros Hn. unfold map_callback. rewrite (get_ok _ _ Hn). reflexivity. Qed.

Lemma map_callback_throws (res : HttpResponse) (data : JsValue) :
  nullish data = true -> map_callback res data = Throw (cannot_read data "message").
Proof. intros Hn. unfold map_callback, get. rewrite Hn. reflexivity. Qed.

(** A field that is present is truthy. *)
Definition present_is_truthy (v : JsValue) (k : string) : Prop :=
  has v k = true -> truthy (prop v k) = true.

Lemma truthy_iff_has v k :
  present_is_truthy v k -> truthy (prop v k) = has v k.
Proof.
  unfold present_is_truthy. destruct (has v k) eqn:Hh.
  - intros H. apply H. reflexivity.
  - intros _. rewrite (has_false_prop _ _ Hh). reflexivity.
Qed.

(** C7 (amended): for every handler result other than [null] and
    [undefined], the success envelope has
    - [statusCode]: the status already set on the response, 200 when that
      is 0;
    - [message]: the result's [message] field when it is truthy, else the
      response's [locals.message] when that is truthy, else ["Success"];
    - [data]: the result's [data] field when it is truthy, else
      [undefined] when the result's [message] field is truthy, else the
      whole result;
    - [meta]: the result's [meta] field ([undefined] when it has none).
    Where the [message] and [data] fields the result carries are truthy and
    the response sets no [locals.message], this is the envelope of the
    specification, which tests the fields for presence. *)
Theorem map_callback_envelope (res : HttpResponse) (data : JsValue) :
  nullish data = false ->
  map_callback res data
  = Ok {| s_statusCode := JsNumber (if statusCode res =? 0 then 200 else statusCode res);
          s_message := first_truthy (prop data "message")
                         (prop (JsObject (locals res)) "message") (JsString "Success");
          s_data := if truthy (prop data "data") then prop data "data"
                    else if truthy (prop data "message") then JsUndefined
                    else data;
          s_meta := prop data "meta" |}
  /\ (present_is_truthy data "message" ->
      present_is_truthy data "data" ->
      truthy (prop (JsObject (locals res)) "message") = false ->
      map_callback res data = Ok (spec_success res data)).
Proof.
  intros Hn.
  assert (E : map_callback res data
              = Ok {| s_statusCode :=
                        JsNumber (if statusCode res =? 0 then 200 else statusCode res);
                      s_message := first_truthy (prop data "message")
                                     (prop (JsObject (locals res)) "message")
                                     (JsString "Success");
                      s_data := if truthy (prop data "data") then prop data "data"
                                else if truthy (prop data "message") then JsUndefined
                                else data;
                      s_meta := prop data "meta" |}).
  { unfold map_callback.
    rewrite (get_ok _ _ Hn), status_default, (data_rule _ Hn), (get_opt_prop _ _ Hn).
    rewrite js_or_chain_right. reflexivity. }
  split; [exact E|].
  intros Hm Hd Hl. rewrite E. unfold spec_success, first_truthy.
  rewrite (truthy_iff_has _ _ Hm), (truthy_iff_has _ _ Hd), Hl.
  rewrite (get_opt_prop _ _ Hn). reflexivity.
Qed.

Lemma map_callback_envelope_witness :
  map_callback plain_response user_created
  = Ok {| s_statusCode := JsNumber 200;
          s_message := JsString "User created successfully";
          s_data := JsUndefined;
          s_meta := JsUndefined |}
  /\ map_callback plain_response user_created
     = Ok (spec_success plain_response user_created).
Proof.
  destruct (map_callback_envelope plain_response user_created eq_refl) as [E S].
  split; [exact E|].
  apply S; [intros _; reflexivity | intros H; discriminate H | reflexivity].
Defined.

(** C10: the success path reads [data.message] without a guard, so on a
    [null] or [undefined] handler result it throws a [TypeError] (which the
    failure path turns into a 500 error envelope), and it produces a success
    envelope exactly when the handler result is neither. *)
Theorem map_callback_needs_non_null (res : HttpResponse) :
  map_callback res JsNull
  = Throw (TypeError "Cannot read properties of null (reading 'message')")
  /\ map_callback res JsUndefined
     = Throw (TypeError "Cannot read properties of undefined (reading 'message')")
  /\ (forall data,
        (exists envelope, map_callback res data = Ok envelope)
        <-> data <> JsNull /\ data <> JsUndefined)
  /\ (forall data,
        data = JsNull \/ data = JsUndefined ->
        exists message,
          intercept res (Ok data)
          = Throw {| e_statusCode := JsNumber 500;
                     e_message := JsString message;
                     e_error := JsString "TypeError";
                     e_data := JsNull |}).
Proof.
  split; [reflexivity|]. split; [reflexivity|]. split.
  - intros data. rewrite <- nullish_false. split.
    + intros [envelope H]. destruct (nullish data) eqn:Hn; [|reflexivity].
      rewrite (map_callback_throws _ _ Hn) in H. discriminate H.
    + intros Hn. pose proof (map_callback_returns res data Hn) as H.
      destruct (map_callback res data) as [envelope|e]; [|discriminate H].
      exists envelope. reflexivity.
  - intros data [-> | ->]; eexists; reflexivity.
Qed.

Lemma map_callback_needs_non_null_witness :
  (exists envelope, map_callback plain_response user_created = Ok envelope)
  /\ exists message,
       intercept plain_response (Ok JsNull)
       = Throw {| e_statusCode := JsNumber 500;
                  e_message := JsString message;
                  e_error := JsString "TypeError";
                  e_data := JsNull |}.
Proof.
  destruct (map_callback_needs_non_null plain_response) as (_ & _ & Hiff & Hnull).
  split.
  - apply Hiff. split; intros H; discriminate H.
  - apply Hnull. left. reflexivity.
Defined.

(** The error envelope of a failure whose status is present and zero. *)
Example no_answer_envelope :
  catchError_callback no_answer
  = {| e_statusCode := JsNumber 500; e_message := JsString "Network Error";
       e_error := JsString "Error"; e_data := JsNull |}.
Proof. reflexivity. Qed.

Example empty_message_envelope :
  catchError_callback (JsObject [("name", JsString "Error"); ("message", JsString "")])
  = {| e_statusCode := JsNumber 500; e_message := JsString "Internal server error";
       e_error := JsString "Error"; e_data := JsNull |}.
Proof. reflexivity. Qed.

(** C8, as stated, fails: a failure whose status code is present and is 0
    gets statusCode 500, where the stated rule keeps the failure's code. *)
Lemma error_envelope_presence_counterexample :
  catchError_callback no_answer <> spec_error no_answer.
Proof. vm_compute. intros H. discriminate H. Qed.

Lemma has_get_opt v k : has v k = false -> get_opt v k = JsUndefined.
Proof.
  intros H. unfold get_opt. rewrite (has_false_prop _ _ H).
  destruct (nullish v); reflexivity.
Qed.

Lemma has_not_nullish v k : has v k = true -> nullish v = false.
Proof. destruct v; simpl; congruence. Qed.

Lemma truthy_get_opt_iff_has v k :
  present_is_truthy v k -> truthy (get_opt v k) = has v k.
Proof.
  intros H. destruct (has v k) eqn:Hh.
  - rewrite (get_opt_prop _ _ (has_not_nullish _ _ Hh)). apply H, Hh.
  - rewrite (has_get_opt _ _ Hh). reflexivity.
Qed.

(** C8 (amended): for every thrown value, whichever component threw it, the
    error envelope has
    - [statusCode]: the failure's [status] when it is truthy, else 500;
    - [message]: the first truthy one of the failure's [response.message],
      the failure's [message] and ["Internal server error"];
    - [error]: the first truthy one of the failure's [response.error], the
      failure's [name] and ["Error"];
    - [data]: [null].
    Where the fields the failure carries are truthy, this is the envelope
    of the specification, which tests the fields for presence. *)
Theorem catchError_callback_envelope (error : JsValue) :
  catchError_callback error
  = {| e_statusCode := if truthy (get_opt error "status") then get_opt error "status"
                       else JsNumber 500;
       e_message := first_truthy (get_opt (get_opt error "response") "message")
                      (get_opt error "message") (JsString "Internal server error");
       e_error := first_truthy (get_opt (get_opt error "response") "error")
                    (get_opt error "name") (JsString "Error");
       e_data := JsNull |}
  /\ e_data (catchError_callback error) = JsNull
  /\ (forall res, intercept res (Throw error) = Throw (catchError_callback error))
  /\ (present_is_truthy error "status" ->
      present_is_truthy error "message" ->
      present_is_truthy error "name" ->
      present_is_truthy (get_opt error "response") "message" ->
      present_is_truthy (get_opt error "response") "error" ->
      catchError_callback error = spec_error error).
Proof.
  assert (E : catchError_callback error
              = {| e_statusCode := if truthy (get_opt error "status")
                                   then get_opt error "status" else JsNumber 500;
                   e_message := first_truthy (get_opt (get_opt error "response") "message")
                                  (get_opt error "message")
                                  (JsString "Internal server error");
                   e_error := first_truthy (get_opt (get_opt error "response") "error")
                                (get_opt error "name") (JsString "Error");
                   e_data := JsNull |}).
  { unfold catchError_callback. rewrite !js_or_chain. reflexivity. }
  split; [exact E|]. split; [reflexivity|]. split; [intros res; reflexivity|].
  intros Hs Hm Hn Hrm Hre. rewrite E.
  unfold spec_error, first_truthy.
  rewrite (truthy_get_opt_iff_has _ _ Hs), (truthy_get_opt_iff_has _ _ Hm),
    (truthy_get_opt_iff_has _ _ Hn), (truthy_get_opt_iff_has _ _ Hrm),
    (truthy_get_opt_iff_has _ _ Hre).
  destruct (has error "status") eqn:H1, (has error "message") eqn:H2,
    (has error "name") eqn:H3, (has (get_opt error "response") "message") eqn:H4,
    (has (get_opt error "response") "error") eqn:H5;
    repeat match goal with
      | H : has ?v ?k = true |- _ =>
          rewrite (get_opt_prop v k (has_not_nullish _ _ H)); clear H
      end; reflexivity.
Qed.

Lemma catchError_callback_envelope_witness :
  catchError_callback (UnauthorizedException "Invalid password")
  = {| e_statusCode := JsNumber 401; e_message := JsString "Invalid password";
       e_error := JsString "Unauthorized"; e_data := JsNull |}
  /\ catchError_callback (UnauthorizedException "Invalid password")
     = spec_error (UnauthorizedException "Invalid password").
Proof.
  destruct (catchError_callback_envelope (UnauthorizedException "Invalid password"))
    as (E & _ & _ & S).
  split; [exact E|].
  apply S; intros _; reflexivity.
Defined.

(** The envelopes of the two framework failures the services throw. *)
Lemma unauthorized_envelope (message : string) :
  message <> "" ->
  catchError_callback (UnauthorizedException message)
  = {| e_statusCode := JsNumber 401; e_message := JsString message;
       e_error := JsString "Unauthorized"; e_data := JsNull |}.
Proof.
  intros H. apply String.eqb_neq in H.
  cbv [catchError_callback js_or get_opt prop nullish lookup truthy
       UnauthorizedException NotFoundException HttpException].
  cbn. repeat (rewrite H; cbn). reflexivity.
Qed.

Lemma not_found_envelope (message : string) :
  message <> "" ->
  catchError_callback (NotFoundException message)
  = {| e_statusCode := JsNumber 404; e_message := JsString message;
       e_error := JsString "Not Found"; e_data := JsNull |}.
Proof.
  intros H. apply String.eqb_neq in H.
  cbv [catchError_callback js_or get_opt prop nullish lookup truthy
       UnauthorizedException NotFoundException HttpException].
  cbn. repeat (rewrite H; cbn). reflexivity.
Qed.

End ResponseInterceptorProofs.

(** ** Login and refresh *)

Module AuthProofs.
Import ResponseInterceptor.

Section AnyJwtService.

Context {Token : Type} {jwtService : JwtService Token}.
Variable bcrypt_compare : string -> string -> bool.
Variable configService : ConfigProps.

(** The one failure [refreshToken] throws. *)
Definition invalid_refresh_token : JsValue :=
  UnauthorizedException "Invalid refresh token".

(** The rows [findOne] tests. *)
Definition by_email (email : string) (u : UserEntity.t) : bool :=
  (UserEntity.email u =? email)%string.

Definition by_id (id : Z) (u : UserEntity.t) : bool := UserEntity.id u =? id.

Definition logged (w : World) (error : JsValue) : World :=
  with_console w (console w ++ [[error; JsString "error"]]).

Definition issuing (w : World) (calls : list (TokenPayload.t * SignOptions)) : World :=
  with_issued w (issued w ++ calls).

(** [login], step by step. *)
Lemma login_run (loginDto : LoginDto) (w : World) :
  AuthService.login bcrypt_compare configService loginDto w
  = match find (by_email (login_email loginDto)) (usersRepository w) with
    | None => (Throw (NotFoundException "User not found"), w)
    | Some user =>
        if bcrypt_compare (login_password loginDto) (UserEntity.password user)
        then
          let payload := AuthService.payload_of user in
          let access := AuthService.access_options configService in
          let refresh := AuthService.refresh_options configService in
          match sign (now w) payload access with
          | Throw e => (Throw e, w)
          | Ok accessToken =>
              match sign (now w) payload refresh with
              | Throw e => (Throw e, issuing w [(payload, access)])
              | Ok refreshToken =>
                  (Ok {| LoginResult.accessToken := accessToken;
                         LoginResult.refreshToken := refreshToken |},
                   issuing w [(payload, access); (payload, refresh)])
              end
          end
        else (Throw (UnauthorizedException "Invalid password"), w)
    end.
Proof.
  unfold AuthService.login, UsersService.findUserByEmailAndPassword,
    UsersService.findOne_email, AuthService.jwtService_sign, bind, ret, throw.
  fold (by_email (login_email loginDto)).
  destruct (find (by_email (login_email loginDto)) (usersRepository w)) as [user|];
    [|reflexivity].
  destruct (bcrypt_compare (login_password loginDto) (UserEntity.password user));
    [|reflexivity].
  cbv zeta.
  destruct (sign (now w) (AuthService.payload_of user)
              (AuthService.access_options configService)) as [accessToken|e];
    [|reflexivity].
  cbn [now with_issued issued].
  destruct (sign (now w) (AuthService.payload_of user)
              (AuthService.refresh_options configService)) as [refreshToken|e].
  - unfold issuing, with_issued. cbn. rewrite <- app_assoc. reflexivity.
  - reflexivity.
Qed.

(** [refreshToken], step by step: whatever goes wrong inside [try] is
    logged and replaced. *)
Lemma refreshToken_run (token : Token) (w : World) :
  AuthService.refreshToken configService token w
  = match verify (now w) token (refresh_secret configService) with
    | Throw e => (Throw invalid_refresh_token, logged w e)
    | Ok payload =>
        match find (by_id (TokenPayload.id payload)) (usersRepository w) with
        | None =>
            (Throw invalid_refresh_token, logged w (NotFoundException "User not found"))
        | Some user =>
            match sign (now w) (AuthService.payload_of user)
                    (AuthService.access_options configService) with
            | Throw e => (Throw invalid_refresh_token, logged w e)
            | Ok accessToken =>
                (Ok {| RefreshResult.accessToken := accessToken |},
                 issuing w [(AuthService.payload_of user,
                             AuthService.access_options configService)])
            end
        end
    end.
Proof.
  unfold AuthService.refreshToken, try_catch, AuthService.jwtService_verify,
    UsersService.findUserById, UsersService.findOne_id, AuthService.jwtService_sign,
    bind, ret, throw, console_log.
  destruct (verify (now w) token (refresh_secret configService)) as [payload|e];
    [|reflexivity].
  fold (by_id (TokenPayload.id payload)).
  destruct (find (by_id (TokenPayload.id payload)) (usersRepository w)) as [user|];
    [|reflexivity].
  destruct (sign (now w) (AuthService.payload_of user)
              (AuthService.access_options configService)); reflexivity.
Qed.

Lemma find_none_iff {A} (f : A -> bool) (l : list A) :
  find f l = None <-> forall x, In x l -> f x = false.
Proof.
  split.
  - apply find_none.
  - induction l as [|a l IH]; intros H; [reflexivity|]. simpl.
    rewrite (H a (or_introl eq_refl)). apply IH. intros x Hx. apply H. right. exact Hx.
Qed.

(** Nothing but the one failure leaves [refreshToken]. *)
Lemma refreshToken_throws_only (token : Token) (w : World) (e : JsValue) (w' : World) :
  AuthService.refreshToken configService token w = (Throw e, w') ->
  e = invalid_refresh_token.
Proof.
  rewrite refreshToken_run.
  destruct (verify (now w) token (refresh_secret configService)) as [payload|e0].
  - destruct (find (by_id (TokenPayload.id payload)) (usersRepository w)) as [user|].
    + destruct (sign (now w) (AuthService.payload_of user)
                  (AuthService.access_options configService));
        intros H; inversion H; reflexivity.
    + intros H; inversion H; reflexivity.
  - intros H; inversion H; reflexivity.
Qed.

(** C1: whatever fails inside [refreshToken] -- the verification of the
    token under the refresh secret (expired, malformed, signed with another
    secret: any failure of [verify]), the lookup of the user by the
    payload's id, or the signing -- the call throws the one
    [UnauthorizedException('Invalid refresh token')], which the interceptor
    reports with status 401 and that message; no other failure leaves the
    call, and any two failing calls throw the same value, so the caller
    cannot tell the causes apart. *)
Theorem refreshToken_failures_collapse (token : Token) (w : World) :
  (forall e w',
      AuthService.refreshToken configService token w = (Throw e, w') ->
      e = invalid_refresh_token)
  /\ (forall token2 w2 e e2 w' w2',
        AuthService.refreshToken configService token w = (Throw e, w') ->
        AuthService.refreshToken configService token2 w2 = (Throw e2, w2') ->
        e = e2
        /\ catchError_callback e = catchError_callback e2)
  /\ (forall e,
        verify (now w) token (refresh_secret configService) = Throw e ->
        fst (AuthService.refreshToken configService token w)
        = Throw invalid_refresh_token)
  /\ (forall payload,
        verify (now w) token (refresh_secret configService) = Ok payload ->
        (forall u, In u (usersRepository w) ->
                   UserEntity.id u <> TokenPayload.id payload) ->
        fst (AuthService.refreshToken configService token w)
        = Throw invalid_refresh_token)
  /\ catchError_callback invalid_refresh_token
     = {| e_statusCode := JsNumber 401;
          e_message := JsString "Invalid refresh token";
          e_error := JsString "Unauthorized";
          e_data := JsNull |}.
Proof.
  split; [|split; [|split; [|split; [|reflexivity]]]].
  - intros e w'. apply refreshToken_throws_only.
  - intros token2 w2 e e2 w' w2' H H2.
    apply refreshToken_throws_only in H. apply refreshToken_throws_only in H2.
    subst. split; reflexivity.
  - intros e He. rewrite refreshToken_run, He. reflexivity.
  - intros payload Hp Hnone. rewrite refreshToken_run, Hp.
    assert (Hfind : find (by_id (TokenPayload.id payload)) (usersRepository w) = None).
    { apply find_none_iff. intros u Hu. unfold by_id.
      apply Z.eqb_neq. apply Hnone. exact Hu. }
    rewrite Hfind. reflexivity.
Qed.

(** C2: [login] throws [NotFoundException('User not found')] when no stored
    user has the email, and [UnauthorizedException('Invalid password')],
    which the interceptor reports with status 401 and that message, when
    the stored user found for the email (the first row that has it) has a
    hash the password does not match; in both cases the world is left as
    it was, so [jwtService.sign] was not called and no token is issued. *)
Theorem login_rejections (loginDto : LoginDto) (w : World) :
  ((forall u, In u (usersRepository w) ->
              UserEntity.email u <> login_email loginDto) ->
   AuthService.login bcrypt_compare configService loginDto w
   = (Throw (NotFoundException "User not found"), w))
  /\ (forall user,
        find (by_email (login_email loginDto)) (usersRepository w) = Some user ->
        bcrypt_compare (login_password loginDto) (UserEntity.password user) = false ->
        AuthService.login bcrypt_compare configService loginDto w
        = (Throw (UnauthorizedException "Invalid password"), w))
  /\ catchError_callback (NotFoundException "User not found")
     = {| e_statusCode := JsNumber 404;
          e_message := JsString "User not found";
          e_error := JsString "Not Found";
          e_data := JsNull |}
  /\ catchError_callback (UnauthorizedException "Invalid password")
     = {| e_statusCode := JsNumber 401;
          e_message := JsString "Invalid password";
          e_error := JsString "Unauthorized";
          e_data := JsNull |}.
Proof.
  split; [|split; [|split; reflexivity]].
  - intros Hnone. rewrite login_run.
    assert (Hfind : find (by_email (login_email loginDto)) (usersRepository w) = None).
    { apply find_none_iff. intros u Hu. unfold by_email.
      apply String.eqb_neq. apply Hnone. exact Hu. }
    rewrite Hfind. reflexivity.
  - intros user Hfind Hbad. rewrite login_run, Hfind, Hbad. reflexivity.
Qed.

(** C4: a [refreshToken] call that returns does so with the object
    [{ accessToken }] alone, whose token is what [jwtService.sign] gives
    for the payload [{ id, email }] of the user looked up by the verified
    payload's id, under the access secret with [expiresIn: '1m']; that
    signing is the only one made, so no refresh token is issued, and
    nothing else in the world changes.  Conversely the call returns
    whenever the three steps succeed. *)
Theorem refreshToken_reissues_access_only (token : Token) (w : World) :
  (forall result w',
      AuthService.refreshToken configService token w = (Ok result, w') ->
      exists payload user,
        verify (now w) token (refresh_secret configService) = Ok payload
        /\ find (by_id (TokenPayload.id payload)) (usersRepository w) = Some user
        /\ sign (now w)
             {| TokenPayload.id := UserEntity.id user;
                TokenPayload.email := UserEntity.email user |}
             {| secret := access_secret configService; expiresIn := "1m" |}
           = Ok (RefreshResult.accessToken result)
        /\ issued w'
           = (issued w ++ [({| TokenPayload.id := UserEntity.id user;
                               TokenPayload.email := UserEntity.email user |},
                            {| secret := access_secret configService;
                               expiresIn := "1m" |})])%list
        /\ usersRepository w' = usersRepository w
        /\ todoRepository w' = todoRepository w
        /\ console w' = console w
        /\ now w' = now w)
  /\ (forall payload user accessToken,
        verify (now w) token (refresh_secret configService) = Ok payload ->
        find (by_id (TokenPayload.id payload)) (usersRepository w) = Some user ->
        sign (now w) (AuthService.payload_of user)
          (AuthService.access_options configService) = Ok accessToken ->
        fst (AuthService.refreshToken configService token w)
        = Ok {| RefreshResult.accessToken := accessToken |}).
Proof.
  split.
  - intros result w'. rewrite refreshToken_run.
    destruct (verify (now w) token (refresh_secret configService)) as [payload|e];
      [|intros H; discriminate H].
    destruct (find (by_id (TokenPayload.id payload)) (usersRepository w)) as [user|] eqn:Hu;
      [|intros H; discriminate H].
    destruct (sign (now w) (AuthService.payload_of user)
                (AuthService.access_options configService)) as [accessToken|e] eqn:Hs;
      [|intros H; discriminate H].
    intros H. inversion H; subst. exists payload, user.
    repeat split; try reflexivity; assumption.
  - intros payload user accessToken Hv Hu Hs.
    rewrite refreshToken_run, Hv, Hu, Hs. reflexivity.
Qed.

End AnyJwtService.
End AuthProofs.

(** ** The auth flow over the specified tokens *)

Module TokenProofs.
Import ResponseInterceptor TokenModel AuthProofs.

Example one_minute : ttl_seconds "1m" = Some 60.
Proof. reflexivity. Qed.

Example seven_days : ttl_seconds "7d" = Some 604800.
Proof. reflexivity. Qed.

Example no_unit : ttl_seconds "15" = None.
Proof. reflexivity. Qed.

(** *** A small store to run the services on *)

(** A stand-in for bcrypt: the hash is the tagged plaintext. *)
Definition toy_hash (plaintext : string) (rounds : Z) : string :=
  "$2b$" ++ (if rounds =? 10 then "10" else "??") ++ "$" ++ plaintext.

Definition toy_compare (plaintext hash : string) : bool :=
  (hash =? toy_hash plaintext 10)%string.

Definition demo_config : ConfigProps :=
  {| api_key := "api-key";
     refresh_secret := "refresh-secret";
     access_secret := "access-secret" |}.

Definition alice : UserEntity.t :=
  {| UserEntity.id := 1; UserEntity.name := "Alice";
     UserEntity.email := "test@example.com";
     UserEntity.password := toy_hash "password123" 10 |}.

(** A second registration under the same email: [UsersService.create] and
    the [users] table accept it. *)
Definition alicia : UserEntity.t :=
  {| UserEntity.id := 2; UserEntity.name := "Alicia";
     UserEntity.email := "test@example.com";
     UserEntity.password := toy_hash "hunter2" 10 |}.

Definition demo_world : World :=
  {| now := 1000; usersRepository := [alice]; todoRepository := [];
     todos_auto_increment := 1; issued := []; console := [] |}.

Definition shared_email_world : World :=
  {| now := 1000; usersRepository := [alice; alicia]; todoRepository := [];
     todos_auto_increment := 1; issued := []; console := [] |}.

(** Registering the email of a stored user once more succeeds. *)
Example second_registration :
  UsersService.create toy_hash
    {| create_name := "Alicia"; create_email := "test@example.com";
       create_password := "hunter2" |} demo_world
  = (Ok (message_object "User created successfully"), shared_email_world).
Proof. reflexivity. Qed.

Definition alice_payload : TokenPayload.t :=
  {| TokenPayload.id := 1; TokenPayload.email := "test@example.com" |}.

Definition demo_login (email password : string) (w : World) :=
  AuthService.login (Token := Token) toy_compare demo_config
    {| login_email := email; login_password := password |} w.

Example login_alice :
  demo_login "test@example.com" "password123" demo_world
  = (Ok {| LoginResult.accessToken := Signed alice_payload 1000 1060 "access-secret";
           LoginResult.refreshToken := Signed alice_payload 1000 605800 "refresh-secret" |},
     with_issued demo_world
       [(alice_payload, {| secret := "access-secret"; expiresIn := "1m" |});
        (alice_payload, {| secret := "refresh-secret"; expiresIn := "7d" |})]).
Proof. reflexivity. Qed.

Example login_wrong_password :
  fst (demo_login "test@example.com" "letmein" demo_world)
  = Throw (UnauthorizedException "Invalid password").
Proof. reflexivity. Qed.

Example login_second_registration :
  fst (demo_login "test@example.com" "hunter2" shared_email_world)
  = Throw (UnauthorizedException "Invalid password").
Proof. reflexivity. Qed.

Example refresh_with_access_token :
  fst (AuthService.refreshToken demo_config
         (Signed alice_payload 1000 1060 "access-secret") demo_world)
  = Throw invalid_refresh_token.
Proof. reflexivity. Qed.

Example refresh_alice :
  AuthService.refreshToken demo_config
    (Signed alice_payload 900 605700 "refresh-secret") demo_world
  = (Ok {| RefreshResult.accessToken := Signed alice_payload 1000 1060 "access-secret" |},
     with_issued demo_world
       [(alice_payload, {| secret := "access-secret"; expiresIn := "1m" |})]).
Proof. reflexivity. Qed.

(** The claim of C3 as it is stated: every stored user can log in with a
    password that matches the stored hash. *)
Definition every_stored_user_can_login
  (bcrypt_compare : string -> string -> bool) (configService : ConfigProps) (w : World)
  : Prop :=
  forall user password,
    In user (usersRepository w) ->
    bcrypt_compare password (UserEntity.password user) = true ->
    is_ok (fst (AuthService.login (Token := Token) bcrypt_compare configService
                  {| login_email := UserEntity.email user;
                     login_password := password |} w)) = true.

(** C3, as stated, fails: of two stored users with one email, the second
    cannot log in with its own password, because the lookup returns the
    first. *)
Lemma shared_email_counterexample :
  ~ every_stored_user_can_login toy_compare demo_config shared_email_world.
Proof.
  intros H.
  specialize (H alicia "hunter2" (or_intror (or_introl eq_refl)) eq_refl).
  vm_compute in H. discriminate H.
Qed.

(** *** Issue and verify *)

Lemma check_issue_before (now : Z) (payload : TokenPayload.t) (secret : string)
  (ttl now' : Z) :
  now' < now + ttl -> check now' (issue now payload secret ttl) secret = Ok payload.
Proof.
  intros H. unfold check, issue. rewrite String.eqb_refl.
  destruct (Z.leb_spec (now + ttl) now'); [lia | reflexivity].
Qed.

Lemma check_issue_after (now : Z) (payload : TokenPayload.t) (secret : string)
  (ttl now' : Z) :
  now + ttl <= now' ->
  check now' (issue now payload secret ttl) secret = Throw (failure Expired).
Proof.
  intros H. unfold check, issue. rewrite String.eqb_refl.
  destruct (Z.leb_spec (now + ttl) now'); [reflexivity | lia].
Qed.

Lemma check_issue_other (now : Z) (payload : TokenPayload.t) (secret other : string)
  (ttl now' : Z) :
  secret <> other ->
  check now' (issue now payload secret ttl) other = Throw (failure InvalidSignature).
Proof.
  intros H. unfold check, issue.
  destruct (String.eqb_spec secret other); [contradiction | reflexivity].
Qed.

Lemma failures_differ :
  failure InvalidSignature <> failure Expired
  /\ failure Expired <> failure Malformed
  /\ failure InvalidSignature <> failure Malformed.
Proof. repeat split; intros H; discriminate H. Qed.

(** C6: at any clock before [ttl] has elapsed since issue, verifying an
    issued token under the secret that signed it gives back the payload, with
    the same [id] and the same [email]; at any clock from then on it fails
    with Expired. *)
Theorem issue_check_round_trip (now : Z) (payload : TokenPayload.t)
  (secret : string) (ttl : Z) :
  (forall now', now' < now + ttl ->
      check now' (issue now payload secret ttl) secret = Ok payload
      /\ exists decoded,
           check now' (issue now payload secret ttl) secret = Ok decoded
           /\ TokenPayload.id decoded = TokenPayload.id payload
           /\ TokenPayload.email decoded = TokenPayload.email payload)
  /\ (forall now', now + ttl <= now' ->
        check now' (issue now payload secret ttl) secret = Throw (failure Expired)).
Proof.
  split.
  - intros now' H. unfold check, issue. rewrite String.eqb_refl.
    destruct (Z.leb_spec (now + ttl) now') as [Hle|Hlt]; [lia|].
    split; [reflexivity|]. exists payload. repeat split.
  - intros now' H. unfold check, issue. rewrite String.eqb_refl.
    destruct (Z.leb_spec (now + ttl) now') as [Hle|Hlt]; [reflexivity | lia].
Qed.

Lemma issue_check_round_trip_witness :
  check 1059 (issue 1000 alice_payload "access-secret" 60) "access-secret"
  = Ok alice_payload
  /\ check 1060 (issue 1000 alice_payload "access-secret" 60) "access-secret"
     = Throw (failure Expired).
Proof.
  destruct (issue_check_round_trip 1000 alice_payload "access-secret" 60)
    as [Hbefore Hafter].
  split.
  - apply (Hbefore 1059). lia.
  - apply (Hafter 1060). lia.
Defined.

(** C5: when the access secret and the refresh secret differ, a token
    issued under either fails verification under the other, at every clock
    and for every payload and ttl; and [refreshToken] rejects a token
    issued under the access secret with the same failure it throws for a
    string that is no token at all. *)
Theorem other_secret_never_verifies (configService : ConfigProps) :
  access_secret configService <> refresh_secret configService ->
  (forall now payload ttl now',
      check now' (issue now payload (access_secret configService) ttl)
        (refresh_secret configService) = Throw (failure InvalidSignature)
      /\ check now' (issue now payload (refresh_secret configService) ttl)
           (access_secret configService) = Throw (failure InvalidSignature))
  /\ (forall w now payload ttl raw,
        fst (AuthService.refreshToken configService
               (issue now payload (access_secret configService) ttl) w)
        = fst (AuthService.refreshToken configService (Garbage raw) w)
        /\ fst (AuthService.refreshToken configService (Garbage raw) w)
           = Throw (UnauthorizedException "Invalid refresh token")).
Proof.
  intros Hdiff. split.
  - intros now payload ttl now'. split.
    + apply check_issue_other. exact Hdiff.
    + apply check_issue_other. intros H. apply Hdiff. symmetry. exact H.
  - intros w now payload ttl raw. rewrite !refreshToken_run.
    cbn [verify service].
    rewrite (check_issue_other _ _ _ _ _ _ Hdiff). split; reflexivity.
Qed.

Lemma other_secret_never_verifies_witness :
  check 1000 (issue 1000 alice_payload "access-secret" 60) "refresh-secret"
  = Throw (failure InvalidSignature)
  /\ fst (AuthService.refreshToken demo_config
            (issue 1000 alice_payload "access-secret" 60) demo_world)
     = fst (AuthService.refreshToken demo_config (Garbage "not a token") demo_world).
Proof.
  assert (Hdiff : access_secret demo_config <> refresh_secret demo_config).
  { intros H. discriminate H. }
  destruct (other_secret_never_verifies demo_config Hdiff) as [Hcheck Hrefresh].
  split.
  - apply (Hcheck 1000 alice_payload 60 1000).
  - apply (Hrefresh demo_world 1000 alice_payload 60 "not a token").
Defined.

(** C3 (amended): when the stored user found for the email (the first row
    that has it) has a hash the password matches, [login] returns exactly
    the pair [{ accessToken, refreshToken }]: the access token issued for
    the payload [{ id, email }] of that user under the access secret with a
    ttl of 60 seconds ('1m'), the refresh token issued for the same payload
    under the refresh secret with a ttl of 604800 seconds ('7d'); these two
    signings are the only ones made, and until it expires each token
    verifies under its own secret to that one payload. *)
Theorem login_issues_token_pair (bcrypt_compare : string -> string -> bool)
  (configService : ConfigProps) (loginDto : LoginDto) (w : World)
  (user : UserEntity.t) :
  find (by_email (login_email loginDto)) (usersRepository w) = Some user ->
  bcrypt_compare (login_password loginDto) (UserEntity.password user) = true ->
  exists accessToken refreshToken,
    AuthService.login bcrypt_compare configService loginDto w
    = (Ok {| LoginResult.accessToken := accessToken;
             LoginResult.refreshToken := refreshToken |},
       with_issued w
         (issued w
          ++ [({| TokenPayload.id := UserEntity.id user;
                  TokenPayload.email := UserEntity.email user |},
               {| secret := access_secret configService; expiresIn := "1m" |});
              ({| TokenPayload.id := UserEntity.id user;
                  TokenPayload.email := UserEntity.email user |},
               {| secret := refresh_secret configService; expiresIn := "7d" |})])%list)
    /\ accessToken
       = issue (now w)
           {| TokenPayload.id := UserEntity.id user;
              TokenPayload.email := UserEntity.email user |}
           (access_secret configService) 60
    /\ refreshToken
       = issue (now w)
           {| TokenPayload.id := UserEntity.id user;
              TokenPayload.email := UserEntity.email user |}
           (refresh_secret configService) 604800
    /\ (forall now', now' < now w + 60 ->
          check now' accessToken (access_secret configService)
          = Ok {| TokenPayload.id := UserEntity.id user;
                  TokenPayload.email := UserEntity.email user |})
    /\ (forall now', now' < now w + 604800 ->
          check now' refreshToken (refresh_secret configService)
          = Ok {| TokenPayload.id := UserEntity.id user;
                  TokenPayload.email := UserEntity.email user |}).
Proof.
  intros Hfind Hmatch. do 2 eexists.
  rewrite login_run, Hfind, Hmatch. cbn [sign service]. unfold sign_with.
  cbn [expiresIn secret AuthService.access_options AuthService.refresh_options].
  rewrite one_minute, seven_days. cbv zeta.
  split; [reflexivity|]. split; [reflexivity|]. split; [reflexivity|].
  split; intros now' H; apply check_issue_before; exact H.
Qed.

Lemma login_issues_token_pair_witness :
  exists accessToken refreshToken,
    fst (demo_login "test@example.com" "password123" demo_world)
    = Ok {| LoginResult.accessToken := accessToken;
            LoginResult.refreshToken := refreshToken |}
    /\ check 1030 accessToken "access-secret" = Ok alice_payload
    /\ check 1030 refreshToken "refresh-secret" = Ok alice_payload.
Proof.
  destruct (login_issues_token_pair toy_compare demo_config
              {| login_email := "test@example.com"; login_password := "password123" |}
              demo_world alice eq_refl eq_refl)
    as (accessToken & refreshToken & Hrun & _ & _ & Haccess & Hrefresh).
  exists accessToken, refreshToken. split.
  - unfold demo_login. rewrite Hrun. reflexivity.
  - split; [apply Haccess | apply Hrefresh]; simpl; lia.
Defined.

(** *** Witnesses on the small store *)

Lemma refreshToken_failures_collapse_witness :
  fst (AuthService.refreshToken demo_config (Garbage "not a token") demo_world)
  = Throw invalid_refresh_token
  /\ fst (AuthService.refreshToken demo_config
            (issue 1000 {| TokenPayload.id := 7; TokenPayload.email := "gone@example.com" |}
               "refresh-secret" 604800) demo_world)
     = Throw invalid_refresh_token.
Proof.
  split.
  - destruct (refreshToken_failures_collapse demo_config
                (Garbage "not a token") demo_world) as (_ & _ & Hverify & _).
    apply (Hverify (failure Malformed)). reflexivity.
  - destruct (refreshToken_failures_collapse demo_config
                (issue 1000 {| TokenPayload.id := 7;
                               TokenPayload.email := "gone@example.com" |}
                   "refresh-secret" 604800) demo_world) as (_ & _ & _ & Hlookup & _).
    apply (Hlookup {| TokenPayload.id := 7; TokenPayload.email := "gone@example.com" |}).
    + reflexivity.
    + intros u [<- | []]. simpl. lia.
Defined.

Lemma login_rejections_witness :
  demo_login "nobody@example.com" "password123" demo_world
  = (Throw (NotFoundException "User not found"), demo_world)
  /\ demo_login "test@example.com" "letmein" demo_world
     = (Throw (UnauthorizedException "Invalid password"), demo_world).
Proof.
  split.
  - apply (proj1 (login_rejections (Token := Token) toy_compare demo_config
                    {| login_email := "nobody@example.com";
                       login_password := "password123" |} demo_world)).
    intros u [<- | []]. simpl. intros H. discriminate H.
  - apply (proj1 (proj2 (login_rejections (Token := Token) toy_compare demo_config
                           {| login_email := "test@example.com";
                              login_password := "letmein" |} demo_world))
             alice); reflexivity.
Defined.

Lemma refreshToken_reissues_access_only_witness :
  fst (AuthService.refreshToken demo_config
         (issue 900 alice_payload "refresh-secret" 604800) demo_world)
  = Ok {| RefreshResult.accessToken := issue 1000 alice_payload "access-secret" 60 |}.
Proof.
  apply (proj2 (refreshToken_reissues_access_only demo_config
                  (issue 900 alice_payload "refresh-secret" 604800) demo_world)
           alice_payload alice); reflexivity.
Defined.

End TokenProofs.

(** ** Todos by id *)

Module TodosProofs.

Section AnyDto.

Variable UpdateTodoDto : Type.
Variable assign : UpdateTodoDto -> TodoEntity.t -> TodoEntity.t.
Variable writes_column : UpdateTodoDto -> bool.

Definition todo_by_id (id : Z) (t : TodoEntity.t) : bool := TodoEntity.id t =? id.

(** The table after [UPDATE todos SET .. WHERE id = ?]. *)
Definition updated (id : Z) (dto : UpdateTodoDto) (todos : list TodoEntity.t)
  : list TodoEntity.t :=
  map (fun t => if TodoEntity.id t =? id then assign dto t else t) todos.

(** The table after [DELETE FROM todos WHERE id = ?]. *)
Definition deleted (id : Z) (todos : list TodoEntity.t) : list TodoEntity.t :=
  filter (fun t => negb (TodoEntity.id t =? id)) todos.

Lemma update_run (id : Z) (dto : UpdateTodoDto) (w : World) :
  TodosService.update UpdateTodoDto assign writes_column id dto w
  = match find (todo_by_id id) (todoRepository w) with
    | None => (Throw (NotFoundException "Todo not found"), w)
    | Some _ =>
        if writes_column dto
        then (Ok (message_object "Todo updated successfully"),
              with_todos w (updated id dto (todoRepository w)))
        else (Throw UpdateValuesMissingError, w)
    end.
Proof.
  unfold TodosService.update, TodosService.findOne_id, TodosService.repository_update,
    bind, ret, throw.
  fold (todo_by_id id).
  destruct (find (todo_by_id id) (todoRepository w)); [|reflexivity].
  destruct (writes_column dto); reflexivity.
Qed.

Lemma remove_run (id : Z) (w : World) :
  TodosService.remove id w
  = match find (todo_by_id id) (todoRepository w) with
    | None => (Throw (NotFoundException "Todo not found"), w)
    | Some _ =>
        (Ok (message_object "Todo deleted successfully"),
         with_todos w (deleted id (todoRepository w)))
    end.
Proof.
  unfold TodosService.remove, TodosService.findOne_id, TodosService.repository_delete,
    bind, ret, throw.
  fold (todo_by_id id).
  destruct (find (todo_by_id id) (todoRepository w)); reflexivity.
Qed.

Lemma find_absent (id : Z) (todos : list TodoEntity.t) :
  (forall t, In t todos -> TodoEntity.id t <> id) -> find (todo_by_id id) todos = None.
Proof.
  induction todos as [|t todos IH]; intros H; [reflexivity|]. simpl.
  unfold todo_by_id at 1.
  destruct (Z.eqb_spec (TodoEntity.id t) id) as [E|_].
  - exfalso. apply (H t); [left; reflexivity | exact E].
  - apply IH. intros t' Ht'. apply H. right. exact Ht'.
Qed.

Lemma find_present (id : Z) (todos : list TodoEntity.t) (todo : TodoEntity.t) :
  In todo todos -> TodoEntity.id todo = id -> find (todo_by_id id) todos <> None.
Proof.
  intros Hin Hid Hnone.
  pose proof (find_none _ _ Hnone todo Hin) as H. unfold todo_by_id in H.
  apply Z.eqb_neq in H. contradiction.
Qed.

Lemma deleted_has_none (id : Z) (todos : list TodoEntity.t) (t : TodoEntity.t) :
  In t (deleted id todos) -> TodoEntity.id t <> id.
Proof.
  unfold deleted. intros H. apply filter_In in H. destruct H as [_ H].
  apply negb_true_iff in H. apply Z.eqb_neq. exact H.
Qed.

Lemma updated_has_assigned (id : Z) (dto : UpdateTodoDto) (todos : list TodoEntity.t)
  (todo : TodoEntity.t) :
  In todo todos -> TodoEntity.id todo = id -> In (assign dto todo) (updated id dto todos).
Proof.
  intros Hin Hid. unfold updated.
  apply in_map_iff. exists todo. split; [|exact Hin].
  rewrite Hid, Z.eqb_refl. reflexivity.
Qed.

(** C9: [update] and [remove] throw [NotFoundException('Todo not found')]
    and leave the table as it was when no todo has the id; when one has,
    [remove] deletes the rows with that id and [update], for a dto that
    sets a column, writes the dto's columns into them, and both report
    success.  Neither receives the caller's identity and neither reads the
    row's [user_id]: the statement holds for every todo with that id,
    whoever owns it and whoever calls, so a caller can update and delete a
    todo of another user.  (A dto that sets no column holds no mutation:
    the repository then throws [UpdateValuesMissingError] and the table is
    as it was, again whoever owns the todo.) *)
Theorem update_remove_by_id_unowned (id : Z) (dto : UpdateTodoDto) (w : World) :
  ((forall t, In t (todoRepository w) -> TodoEntity.id t <> id) ->
   TodosService.update UpdateTodoDto assign writes_column id dto w
   = (Throw (NotFoundException "Todo not found"), w)
   /\ TodosService.remove id w = (Throw (NotFoundException "Todo not found"), w))
  /\ (forall todo : TodoEntity.t,
        In todo (todoRepository w) ->
        TodoEntity.id todo = id ->
        (writes_column dto = true ->
         TodosService.update UpdateTodoDto assign writes_column id dto w
         = (Ok (message_object "Todo updated successfully"),
            with_todos w (updated id dto (todoRepository w)))
         /\ todoRepository
              (snd (TodosService.update UpdateTodoDto assign writes_column id dto w))
            = updated id dto (todoRepository w)
         /\ In (assign dto todo) (updated id dto (todoRepository w)))
        /\ (writes_column dto = false ->
            TodosService.update UpdateTodoDto assign writes_column id dto w
            = (Throw UpdateValuesMissingError, w))
        /\ TodosService.remove id w
           = (Ok (message_object "Todo deleted successfully"),
              with_todos w (deleted id (todoRepository w)))
        /\ todoRepository (snd (TodosService.remove id w))
           = deleted id (todoRepository w)
        /\ (forall t, In t (deleted id (todoRepository w)) -> TodoEntity.id t <> id)).
Proof.
  split.
  - intros Habsent. rewrite update_run, remove_run, (find_absent _ _ Habsent).
    split; reflexivity.
  - intros todo Hin Hid.
    pose proof (find_present _ _ _ Hin Hid) as Hfound.
    rewrite update_run, remove_run.
    destruct (find (todo_by_id id) (todoRepository w)) as [found|]; [|contradiction].
    split; [|split; [|split; [|split]]].
    + intros Hwrites. rewrite Hwrites.
      split; [reflexivity|]. split; [reflexivity|].
      apply updated_has_assigned; assumption.
    + intros Hnone. rewrite Hnone. reflexivity.
    + reflexivity.
    + reflexivity.
    + intros t. apply deleted_has_none.
Qed.

End AnyDto.

(** *** A small table *)

(** The partial of [CreateTodoDto]: each column is optional. *)
Record PartialTodo : Type := {
  new_title : option string;
  new_description : option string
}.

Definition writes_partial (dto : PartialTodo) : bool :=
  match new_title dto, new_description dto with
  | None, None => false
  | _, _ => true
  end.

Definition assign_partial (dto : PartialTodo) (t : TodoEntity.t) : TodoEntity.t :=
  {| TodoEntity.id := TodoEntity.id t;
     TodoEntity.title := match new_title dto with Some s => s | None => TodoEntity.title t end;
     TodoEntity.description :=
       match new_description dto with Some s => s | None => TodoEntity.description t end;
     TodoEntity.user_id := TodoEntity.user_id t;
     TodoEntity.created_at := TodoEntity.created_at t |}.

Definition groceries : TodoEntity.t :=
  {| TodoEntity.id := 10; TodoEntity.title := "Buy groceries";
     TodoEntity.description := "Buy groceries for the week";
     TodoEntity.user_id := 2; TodoEntity.created_at := 900 |}.

Definition laundry : TodoEntity.t :=
  {| TodoEntity.id := 11; TodoEntity.title := "Laundry";
     TodoEntity.description := "Whites"; TodoEntity.user_id := 1;
     TodoEntity.created_at := 950 |}.

Definition todo_world : World :=
  {| now := 1000; usersRepository := []; todoRepository := [groceries; laundry];
     todos_auto_increment := 12; issued := []; console := [] |}.

Definition retitle : PartialTodo :=
  {| new_title := Some "Buy nothing"; new_description := None |}.

(** The dto [{}]. *)
Definition nothing_new : PartialTodo :=
  {| new_title := None; new_description := None |}.

(** The caller is user 1; the todo 10 belongs to user 2. *)
Definition caller_one : TokenPayload.t :=
  {| TokenPayload.id := 1; TokenPayload.email := "test@example.com" |}.

Example update_foreign_todo :
  TodosService.update PartialTodo assign_partial writes_partial 10 retitle todo_world
  = (Ok (JsObject [("message", JsString "Todo updated successfully")]),
     with_todos todo_world
       [{| TodoEntity.id := 10; TodoEntity.title := "Buy nothing";
           TodoEntity.description := "Buy groceries for the week";
           TodoEntity.user_id := 2; TodoEntity.created_at := 900 |};
        laundry]).
Proof. reflexivity. Qed.

Example remove_foreign_todo :
  TodosService.remove 10 todo_world
  = (Ok (JsObject [("message", JsString "Todo deleted successfully")]),
     with_todos todo_world [laundry]).
Proof. reflexivity. Qed.

Example update_nothing :
  TodosService.update PartialTodo assign_partial writes_partial 10 nothing_new todo_world
  = (Throw UpdateValuesMissingError, todo_world).
Proof. reflexivity. Qed.

Lemma update_remove_by_id_unowned_witness :
  (TodosService.update PartialTodo assign_partial writes_partial 12 retitle todo_world
   = (Throw (NotFoundException "Todo not found"), todo_world)
   /\ TodosService.remove 12 todo_world
      = (Throw (NotFoundException "Todo not found"), todo_world))
  /\ TodosService.update PartialTodo assign_partial writes_partial 10 retitle todo_world
     = (Ok (message_object "Todo updated successfully"),
        with_todos todo_world (updated PartialTodo assign_partial 10 retitle
                                 (todoRepository todo_world)))
  /\ TodosService.update PartialTodo assign_partial writes_partial 10 nothing_new
       todo_world
     = (Throw UpdateValuesMissingError, todo_world)
  /\ TodosService.remove 10 todo_world
     = (Ok (message_object "Todo deleted successfully"),
        with_todos todo_world (deleted 10 (todoRepository todo_world))).
Proof.
  split; [|split; [|split]].
  - apply (proj1 (update_remove_by_id_unowned PartialTodo assign_partial writes_partial
                    12 retitle todo_world)).
    intros u Hu. destruct Hu as [<- | [<- | []]]; simpl; lia.
  - destruct (proj2 (update_remove_by_id_unowned PartialTodo assign_partial
                       writes_partial 10 retitle todo_world) groceries)
      as (Hupdate & _).
    + left. reflexivity.
    + reflexivity.
    + apply Hupdate. reflexivity.
  - destruct (proj2 (update_remove_by_id_unowned PartialTodo assign_partial
                       writes_partial 10 nothing_new todo_world) groceries)
      as (_ & Hnothing & _).
    + left. reflexivity.
    + reflexivity.
    + apply Hnothing. reflexivity.
  - destruct (proj2 (update_remove_by_id_unowned PartialTodo assign_partial
                       writes_partial 10 retitle todo_world) groceries)
      as (_ & _ & Hremove & _).
    + left. reflexivity.
    + reflexivity.
    + exact Hremove.
Defined.

(** The caller of the witness is not the owner of the todo it mutates. *)
Example witness_todo_is_foreign :
  TodoEntity.user_id groceries <> TokenPayload.id caller_one.
Proof. simpl. lia. Qed.

End TodosProofs.

(** ** Lookups in a table *)

Module TableFacts.

Lemma find_snoc {A} (f : A -> bool) (l : list A) (x : A) :
  find f (l ++ [x])
  = match find f l with
    | Some y => Some y
    | None => if f x then Some x else None
    end.
Proof.
  induction l as [|a l IH]; simpl.
  - reflexivity.
  - destruct (f a); [reflexivity | exact IH].
Qed.

Lemma find_none_all {A} (f : A -> bool) (l : list A) :
  (forall x, In x l -> f x = false) -> find f l = None.
Proof.
  induction l as [|a l IH]; intros H; [reflexivity|]. simpl.
  rewrite (H a (or_introl eq_refl)). apply IH. intros x Hx. apply H. right. exact Hx.
Qed.

(** A map that keeps the tested key commutes with the lookup. *)
Lemma find_map_same_key {A} (f : A -> bool) (g : A -> A) (l : list A) :
  (forall x, f (g x) = f x) ->
  find f (map g l) = option_map g (find f l).
Proof.
  intros H. induction l as [|a l IH]; simpl; [reflexivity|].
  rewrite H. destruct (f a); [reflexivity | exact IH].
Qed.

(** A filter that keeps every row the lookup accepts does not change it. *)
Lemma find_filter_kept {A} (f q : A -> bool) (l : list A) :
  (forall x, f x = true -> q x = true) ->
  find f (filter q l) = find f l.
Proof.
  intros H. induction l as [|a l IH]; simpl; [reflexivity|].
  destruct (q a) eqn:Hq; simpl.
  - destruct (f a); [reflexivity | exact IH].
  - destruct (f a) eqn:Hf; [|exact IH].
    rewrite (H a Hf) in Hq. discriminate Hq.
Qed.

Lemma max_bound (l : list Z) (x : Z) : In x l -> x <= fold_right Z.max 0 l.
Proof.
  induction l as [|a l IH]; simpl; intros H; [contradiction|].
  destruct H as [-> | H]; [lia|]. specialize (IH H). lia.
Qed.

End TableFacts.

(** ** Registration, then lookup and login *)

Module RegistrationProofs.
Import TableFacts AuthProofs.

Section AnyHasher.

Context {Token : Type} {jwtService : JwtService Token}.
Variable bcrypt_hash : string -> Z -> string.
Variable bcrypt_compare : string -> string -> bool.
Variable configService : ConfigProps.

(** The row a registration stores. *)
Definition registered (createUserDto : CreateUserDto) (w : World) : UserEntity.t :=
  {| UserEntity.id := UsersService.next_id (usersRepository w);
     UserEntity.name := create_name createUserDto;
     UserEntity.email := create_email createUserDto;
     UserEntity.password := bcrypt_hash (create_password createUserDto) 10 |}.

(** The world a registration leaves. *)
Definition after_create (createUserDto : CreateUserDto) (w : World) : World :=
  snd (UsersService.create bcrypt_hash createUserDto w).

Lemma after_create_users (createUserDto : CreateUserDto) (w : World) :
  usersRepository (after_create createUserDto w)
  = (usersRepository w ++ [registered createUserDto w])%list.
Proof. reflexivity. Qed.

Lemma next_id_fresh (rows : list UserEntity.t) (u : UserEntity.t) :
  In u rows -> UserEntity.id u < UsersService.next_id rows.
Proof.
  intros H. unfold UsersService.next_id.
  pose proof (max_bound (map UserEntity.id rows) (UserEntity.id u)
                (in_map UserEntity.id rows u H)).
  lia.
Qed.

Lemma findUserById_run (id : Z) (w : World) :
  UsersService.findUserById id w
  = match find (by_id id) (usersRepository w) with
    | Some user => (Ok user, w)
    | None => (Throw (NotFoundException "User not found"), w)
    end.
Proof.
  unfold UsersService.findUserById, UsersService.findOne_id, bind, ret, throw.
  fold (by_id id). destruct (find (by_id id) (usersRepository w)); reflexivity.
Qed.

Lemma findUserByEmailAndPassword_run (email password : string) (w : World) :
  UsersService.findUserByEmailAndPassword bcrypt_compare email password w
  = match find (by_email email) (usersRepository w) with
    | Some user =>
        if bcrypt_compare password (UserEntity.password user)
        then (Ok user, w)
        else (Throw (UnauthorizedException "Invalid password"), w)
    | None => (Throw (NotFoundException "User not found"), w)
    end.
Proof.
  unfold UsersService.findUserByEmailAndPassword, UsersService.findOne_email,
    bind, ret, throw.
  fold (by_email email).
  destruct (find (by_email email) (usersRepository w)) as [user|]; [|reflexivity].
  destruct (bcrypt_compare password (UserEntity.password user)); reflexivity.
Qed.

(** X2: after a registration, [findUserById] of the generated id returns
    the row just stored, and every id that was found before is still found
    with the same row: the generated id is above every stored id. *)
Theorem create_then_findUserById (createUserDto : CreateUserDto) (w : World) :
  UsersService.findUserById (UsersService.next_id (usersRepository w))
    (after_create createUserDto w)
  = (Ok (registered createUserDto w), after_create createUserDto w)
  /\ (forall id user,
        find (by_id id) (usersRepository w) = Some user ->
        UsersService.findUserById id (after_create createUserDto w)
        = (Ok user, after_create createUserDto w)).
Proof.
  split.
  - rewrite findUserById_run, after_create_users, find_snoc.
    rewrite find_none_all.
    + unfold by_id at 1. cbn [registered UserEntity.id]. rewrite Z.eqb_refl. reflexivity.
    + intros u Hu. unfold by_id. apply Z.eqb_neq.
      pose proof (next_id_fresh _ _ Hu). lia.
  - intros id user Hfound.
    rewrite findUserById_run, after_create_users, find_snoc, Hfound. reflexivity.
Qed.

(** X3: a registration under an email no stored row has, with a hasher
    whose [compare] accepts the hash it made of this password, can log in:
    the credential check on the dto's email and password then returns the
    row just stored. *)
Theorem create_then_credentials (createUserDto : CreateUserDto) (w : World) :
  (forall u, In u (usersRepository w) ->
             UserEntity.email u <> create_email createUserDto) ->
  bcrypt_compare (create_password createUserDto)
    (bcrypt_hash (create_password createUserDto) 10) = true ->
  UsersService.findUserByEmailAndPassword bcrypt_compare
    (create_email createUserDto) (create_password createUserDto)
    (after_create createUserDto w)
  = (Ok (registered createUserDto w), after_create createUserDto w).
Proof.
  intros Hfresh Hlaw.
  rewrite findUserByEmailAndPassword_run, after_create_users, find_snoc.
  rewrite find_none_all.
  - unfold by_email at 1. cbn [registered UserEntity.email].
    rewrite String.eqb_refl. cbn [registered UserEntity.password].
    rewrite Hlaw. reflexivity.
  - intros u Hu. unfold by_email. apply String.eqb_neq. apply Hfresh. exact Hu.
Qed.

(** X4: a registration changes no login under an email that was already
    stored: for every password, [login] under that email returns or throws
    after the registration what it did before it.  So a second registration
    under a stored email never gets to log in with a password of its own. *)
Theorem create_keeps_stored_logins (createUserDto : CreateUserDto)
  (loginDto : LoginDto) (w : World) (stored : UserEntity.t) :
  find (by_email (login_email loginDto)) (usersRepository w) = Some stored ->
  fst (AuthService.login bcrypt_compare configService loginDto
         (after_create createUserDto w))
  = fst (AuthService.login bcrypt_compare configService loginDto w).
Proof.
  intros Hstored. rewrite !login_run.
  rewrite after_create_users, find_snoc, Hstored.
  change (now (after_create createUserDto w)) with (now w).
  destruct (bcrypt_compare (login_password loginDto) (UserEntity.password stored));
    [|reflexivity].
  cbv zeta.
  destruct (sign (now w) (AuthService.payload_of stored)
              (AuthService.access_options configService)); [|reflexivity].
  destruct (sign (now w) (AuthService.payload_of stored)
              (AuthService.refresh_options configService)); reflexivity.
Qed.

End AnyHasher.
End RegistrationProofs.

(** ** From login to refresh *)

Module SessionProofs.
Import TokenModel AuthProofs.

Section AnyJwtService.

Context {Token : Type} {jwtService : JwtService Token}.
Variable configService : ConfigProps.

(** X5: a refresh cannot change identity: when [refreshToken] returns, the
    token it returns was signed for the id carried by the presented token's
    verified payload, with the email of a stored user that has this id. *)
Theorem refreshToken_keeps_identity (token : Token) (w : World)
  (result : RefreshResult.t Token) (w' : World) :
  AuthService.refreshToken configService token w = (Ok result, w') ->
  exists payload user,
    verify (now w) token (refresh_secret configService) = Ok payload
    /\ In user (usersRepository w)
    /\ UserEntity.id user = TokenPayload.id payload
    /\ sign (now w)
         {| TokenPayload.id := TokenPayload.id payload;
            TokenPayload.email := UserEntity.email user |}
         {| secret := access_secret configService; expiresIn := "1m" |}
       = Ok (RefreshResult.accessToken result).
Proof.
  rewrite refreshToken_run.
  destruct (verify (now w) token (refresh_secret configService)) as [payload|e];
    [|intros H; discriminate H].
  destruct (find (by_id (TokenPayload.id payload)) (usersRepository w)) as [user|] eqn:Hu;
    [|intros H; discriminate H].
  destruct (sign (now w) (AuthService.payload_of user)
              (AuthService.access_options configService)) as [accessToken|e] eqn:Hs;
    [|intros H; discriminate H].
  intros H. inversion H; subst. clear H.
  apply find_some in Hu. destruct Hu as [Hin Hid].
  unfold by_id in Hid. apply Z.eqb_eq in Hid.
  exists payload, user. repeat split; try assumption.
  rewrite <- Hid. exact Hs.
Qed.

End AnyJwtService.

(** X6: over the tokens of the specification, the pair a login returns
    behaves as a session: there is a stored user such that, in any later
    world, the refresh token is accepted while fewer than 604800 seconds
    have passed since the login and a row with the user's id is found, and
    gives an access token for that row valid for 60 seconds; from 604800
    seconds on it is refused; and the access token is refused by
    [refreshToken] at all times when the two secrets differ. *)
Theorem login_then_refresh (bcrypt_compare : string -> string -> bool)
  (configService : ConfigProps) (loginDto : LoginDto) (w : World)
  (result : LoginResult.t TokenModel.Token) (w1 : World) :
  AuthService.login bcrypt_compare configService loginDto w = (Ok result, w1) ->
  exists user,
    In user (usersRepository w)
    /\ (forall later row,
          now later < now w + 604800 ->
          find (by_id (UserEntity.id user)) (usersRepository later) = Some row ->
          fst (AuthService.refreshToken configService
                 (LoginResult.refreshToken result) later)
          = Ok {| RefreshResult.accessToken :=
                    issue (now later) (AuthService.payload_of row)
                      (access_secret configService) 60 |})
    /\ (forall later,
          now w + 604800 <= now later ->
          fst (AuthService.refreshToken configService
                 (LoginResult.refreshToken result) later)
          = Throw invalid_refresh_token)
    /\ (access_secret configService <> refresh_secret configService ->
        forall later,
          fst (AuthService.refreshToken configService
                 (LoginResult.accessToken result) later)
          = Throw invalid_refresh_token).
Proof.
  rewrite login_run.
  destruct (find (by_email (login_email loginDto)) (usersRepository w)) as [user|] eqn:Hu;
    [|intros H; discriminate H].
  destruct (bcrypt_compare (login_password loginDto) (UserEntity.password user));
    [|intros H; discriminate H].
  cbn [sign service]. unfold sign_with.
  cbn [expiresIn secret AuthService.access_options AuthService.refresh_options].
  change (ttl_seconds "1m") with (Some 60).
  change (ttl_seconds "7d") with (Some 604800).
  cbv zeta. intros H. inversion H; subst. clear H.
  exists user. split; [exact (proj1 (find_some _ _ Hu))|].
  cbn [LoginResult.refreshToken LoginResult.accessToken].
  split; [|split].
  - intros later row Hlt Hrow. rewrite refreshToken_run.
    cbn [verify sign service]. unfold check, issue at 1.
    rewrite String.eqb_refl.
    destruct (Z.leb_spec (now w + 604800) (now later)); [lia|].
    cbn [AuthService.payload_of TokenPayload.id]. rewrite Hrow.
    unfold sign_with. cbn [expiresIn secret AuthService.access_options].
    change (ttl_seconds "1m") with (Some 60). reflexivity.
  - intros later Hge. rewrite refreshToken_run.
    cbn [verify service]. unfold check, issue.
    rewrite String.eqb_refl.
    destruct (Z.leb_spec (now w + 604800) (now later)); [reflexivity | lia].
  - intros Hdiff later. rewrite refreshToken_run.
    cbn [verify service]. unfold check, issue.
    destruct (String.eqb_spec (access_secret configService)
                (refresh_secret configService)); [contradiction | reflexivity].
Qed.

End SessionProofs.

(** ** The bearer token of the refresh header *)

Module ControllerProofs.
Import AuthController.

(** No character of the string is a space. *)
Fixpoint spaceless (s : string) : bool :=
  match s with
  | EmptyString => true
  | String c rest => negb (Ascii.eqb c " ") && spaceless rest
  end.

Lemma split_space_whole (s : string) : spaceless s = true -> split_space s = [s].
Proof.
  induction s as [|c s IH]; simpl; intros H; [reflexivity|].
  apply andb_true_iff in H. destruct H as [Hc Hs].
  apply negb_true_iff in Hc. rewrite Hc, (IH Hs). reflexivity.
Qed.

Lemma split_space_at (a b : string) :
  spaceless a = true -> split_space (a ++ " " ++ b) = a :: split_space b.
Proof.
  induction a as [|c a IH]; simpl; intros H; [reflexivity|].
  apply andb_true_iff in H. destruct H as [Hc Ha].
  apply negb_true_iff in Hc. rewrite Hc. simpl in IH. rewrite (IH Ha). reflexivity.
Qed.

Lemma split_space_two (s : string) :
  spaceless s = false -> exists a b rest, split_space s = a :: b :: rest.
Proof.
  induction s as [|c s IH]; simpl; intros H; [discriminate H|].
  destruct (Ascii.eqb c " ") eqn:Hc.
  - destruct (split_space s) as [|b rest] eqn:Hs.
    + destruct s; simpl in Hs; [discriminate Hs|].
      destruct (Ascii.eqb a " "); [discriminate Hs|].
      destruct (split_space s); discriminate Hs.
    + exists "", b, rest. reflexivity.
  - simpl in H. destruct (IH H) as (a & b & rest & ->).
    exists (String c a), b, rest. reflexivity.
Qed.

(** X7: the token handed to the service is the text between the first and
    the second space of the header, whatever stands before the first space:
    for a scheme word and a token without spaces, the header
    [scheme ++ " " ++ token] gives [token], also when more text follows
    after another space.  The scheme is not compared with ["Bearer"], and
    an empty token (two spaces in a row) gives the empty string. *)
Theorem bearer_token_between_spaces (scheme token : string) :
  spaceless scheme = true ->
  spaceless token = true ->
  bearer_token (Some (scheme ++ " " ++ token)) = Some token
  /\ (forall rest,
        bearer_token (Some (scheme ++ " " ++ token ++ " " ++ rest)) = Some token).
Proof.
  intros Hscheme Htoken. unfold bearer_token. split.
  - rewrite (split_space_at _ _ Hscheme), (split_space_whole _ Htoken). reflexivity.
  - intros rest.
    rewrite (split_space_at _ _ Hscheme), (split_space_at _ _ Htoken). reflexivity.
Qed.

Lemma bearer_token_between_spaces_witness :
  bearer_token (Some "Bearer abc.def.ghi") = Some "abc.def.ghi"
  /\ bearer_token (Some "Basic abc.def.ghi trailing words") = Some "abc.def.ghi"
  /\ bearer_token (Some "Bearer  abc.def.ghi") = Some "".
Proof.
  split; [|split].
  - apply (proj1 (bearer_token_between_spaces "Bearer" "abc.def.ghi" eq_refl eq_refl)).
  - apply (proj2 (bearer_token_between_spaces "Basic" "abc.def.ghi" eq_refl eq_refl)
             "trailing words").
  - apply (proj2 (bearer_token_between_spaces "Bearer" "" eq_refl eq_refl)
             "abc.def.ghi").
Defined.

(** X8: the service receives [undefined] exactly when the header is absent
    or holds no space: a bare token, sent without a scheme word, is not
    passed on. *)
Theorem bearer_token_undefined (header : option string) :
  bearer_token header = None
  <-> header = None \/ exists text, header = Some text /\ spaceless text = true.
Proof.
  destruct header as [text|]; simpl.
  - split.
    + intros H. right. exists text. split; [reflexivity|].
      destruct (spaceless text) eqn:Hs; [reflexivity|].
      destruct (split_space_two _ Hs) as (a & b & rest & E).
      rewrite E in H. discriminate H.
    + intros [H | (text' & H & Hs)]; [discriminate H|].
      inversion H; subst. rewrite (split_space_whole _ Hs). reflexivity.
  - split; [intros _; left; reflexivity | reflexivity].
Qed.

Lemma bearer_token_undefined_witness :
  bearer_token (Some "abc.def.ghi") = None /\ bearer_token None = None.
Proof.
  split.
  - apply (proj2 (bearer_token_undefined (Some "abc.def.ghi"))).
    right. exists "abc.def.ghi". split; reflexivity.
  - apply (proj2 (bearer_token_undefined None)). left. reflexivity.
Defined.

End ControllerProofs.

(** ** What the envelopes always and never hold *)

Module EnvelopeProofs.
Import ResponseInterceptor ResponseInterceptorProofs.

Lemma truthy_js_or (a b : JsValue) : truthy (js_or a b) = truthy a || truthy b.
Proof. unfold js_or. destruct (truthy a) eqn:Ha; [exact Ha | reflexivity]. Qed.

(** X9: a success envelope never has a blank message or a zero status:
    whenever the success path returns, its [message] is truthy (the
    fallback ["Success"] closes the chain) and its [statusCode] is a number
    other than 0. *)
Theorem success_envelope_never_blank (res : HttpResponse) (data : JsValue)
  (envelope : SuccessEnvelope) :
  map_callback res data = Ok envelope ->
  truthy (s_message envelope) = true
  /\ exists n, s_statusCode envelope = JsNumber n /\ n <> 0.
Proof.
  unfold map_callback. destruct (get data "message") as [data_message|e];
    [|intros H; discriminate H].
  intros H. inversion H; subst; clear H. cbn [s_message s_statusCode]. split.
  - rewrite !truthy_js_or. cbn [truthy]. rewrite !orb_true_r. reflexivity.
  - rewrite status_default. eexists. split; [reflexivity|].
    destruct (Z.eqb_spec (statusCode res) 0); [discriminate | assumption].
Qed.

Lemma success_envelope_never_blank_witness :
  truthy (JsString "Success") = true
  /\ exists n, JsNumber 200 = JsNumber n /\ n <> 0.
Proof.
  exact (success_envelope_never_blank plain_response zero_count
           {| s_statusCode := JsNumber 200; s_message := JsString "Success";
              s_data := zero_count; s_meta := JsUndefined |} eq_refl).
Defined.

(** X10: an error envelope never has a blank field: for every thrown value
    its [statusCode], [message] and [error] are truthy (each chain ends in a
    fallback that is) and its [data] is [null]. *)
Theorem error_envelope_never_blank (error : JsValue) :
  truthy (e_statusCode (catchError_callback error)) = true
  /\ truthy (e_message (catchError_callback error)) = true
  /\ truthy (e_error (catchError_callback error)) = true
  /\ e_data (catchError_callback error) = JsNull.
Proof.
  unfold catchError_callback. cbn [e_statusCode e_message e_error e_data].
  rewrite !truthy_js_or. cbn [truthy]. rewrite !orb_true_r.
  repeat split.
Qed.

Definition is_object (v : JsValue) : bool :=
  match v with
  | JsObject _ => true
  | _ => false
  end.

(** X11: a result that is not an object -- a string, a number, a boolean or
    an array, the falsy ones ([0], [""], [false], [NaN]) and the empty array
    included -- is emitted whole as [data], under the default message and
    with no [meta]. *)
Theorem non_object_result_emitted_whole (res : HttpResponse) (data : JsValue) :
  nullish data = false ->
  is_object data = false ->
  map_callback res data
  = Ok {| s_statusCode := JsNumber (if statusCode res =? 0 then 200 else statusCode res);
          s_message := js_or (prop (JsObject (locals res)) "message") (JsString "Success");
          s_data := data;
          s_meta := JsUndefined |}.
Proof.
  intros Hn Ho. unfold map_callback. rewrite status_default.
  destruct data; try discriminate Hn; try discriminate Ho; reflexivity.
Qed.

Lemma non_object_result_emitted_whole_witness :
  map_callback plain_response (JsArray [])
  = Ok {| s_statusCode := JsNumber 200; s_message := JsString "Success";
          s_data := JsArray []; s_meta := JsUndefined |}
  /\ map_callback plain_response (JsNumber 0)
     = Ok {| s_statusCode := JsNumber 200; s_message := JsString "Success";
             s_data := JsNumber 0; s_meta := JsUndefined |}.
Proof.
  split.
  - exact (non_object_result_emitted_whole plain_response (JsArray []) eq_refl eq_refl).
  - exact (non_object_result_emitted_whole plain_response (JsNumber 0) eq_refl eq_refl).
Defined.

(** The envelope of a result that is a message and nothing else. *)
Definition message_only (res : HttpResponse) (message : string) : SuccessEnvelope :=
  {| s_statusCode := JsNumber (if statusCode res =? 0 then 200 else statusCode res);
     s_message := JsString message;
     s_data := JsUndefined;
     s_meta := JsUndefined |}.

Lemma message_object_envelope (res : HttpResponse) (message : string) :
  message <> "" ->
  intercept res (Ok (message_object message)) = Ok (message_only res message).
Proof.
  intros H. apply String.eqb_neq in H.
  unfold intercept, map_callback, message_only. rewrite status_default.
  cbn [get nullish message_object prop lookup get_opt String.eqb Ascii.eqb Bool.eqb].
  unfold js_or, js_and, js_not. cbn [truthy]. rewrite H. cbn [negb].
  reflexivity.
Qed.

(** X12: every mutation of the two services answers with its message and
    no data: whatever the response's [locals.message], the envelope of what
    [UsersService.create], [TodosService.create], [TodosService.update] and
    [TodosService.remove] return has that operation's message, [data]
    [undefined] and [meta] [undefined]. *)
Theorem mutations_answer_message_only (res : HttpResponse) :
  (forall bcrypt_hash createUserDto w,
      intercept res (fst (UsersService.create bcrypt_hash createUserDto w))
      = Ok (message_only res "User created successfully"))
  /\ (forall createTodoDto user w,
        intercept res (fst (TodosService.create createTodoDto user w))
        = Ok (message_only res "Todo created successfully"))
  /\ (forall UpdateTodoDto assign writes_column id (dto : UpdateTodoDto) w result w',
        TodosService.update UpdateTodoDto assign writes_column id dto w
        = (Ok result, w') ->
        intercept res (Ok result) = Ok (message_only res "Todo updated successfully"))
  /\ (forall id w result w',
        TodosService.remove id w = (Ok result, w') ->
        intercept res (Ok result) = Ok (message_only res "Todo deleted successfully")).
Proof.
  split; [|split; [|split]].
  - intros. apply message_object_envelope. discriminate.
  - intros. apply message_object_envelope. discriminate.
  - intros UpdateTodoDto assign writes_column id dto w result w'.
    rewrite TodosProofs.update_run.
    destruct (find (TodosProofs.todo_by_id id) (todoRepository w));
      [destruct (writes_column dto)|]; intros H; inversion H; subst.
    apply message_object_envelope. discriminate.
  - intros id w result w'. rewrite TodosProofs.remove_run.
    destruct (find (TodosProofs.todo_by_id id) (todoRepository w));
      intros H; inversion H; subst.
    apply message_object_envelope. discriminate.
Qed.

Lemma mutations_answer_message_only_witness :
  intercept plain_response (Ok (message_object "Todo deleted successfully"))
  = Ok (message_only plain_response "Todo deleted successfully").
Proof.
  exact (proj2 (proj2 (proj2 (mutations_answer_message_only plain_response)))
           10 TodosProofs.todo_world
           (message_object "Todo deleted successfully")
           (with_todos TodosProofs.todo_world [TodosProofs.laundry]) eq_refl).
Defined.

End EnvelopeProofs.

(** ** The todo table under create, find, update and remove *)

Module TodoStoreProofs.
Import TableFacts TodosProofs.

(** The world an operation leaves. *)
Definition after {A} (m : M A) (w : World) : World := snd (m w).

(** The row [create] stores. *)
Definition created (createTodoDto : CreateTodoDto.t) (user : TokenPayload.t) (w : World)
  : TodoEntity.t :=
  {| TodoEntity.id := todos_auto_increment w;
     TodoEntity.title := CreateTodoDto.title createTodoDto;
     TodoEntity.description := CreateTodoDto.description createTodoDto;
     TodoEntity.user_id := TokenPayload.id user;
     TodoEntity.created_at := now w |}.

Definition owned_by (user : TokenPayload.t) (t : TodoEntity.t) : bool :=
  TodoEntity.user_id t =? TokenPayload.id user.

Lemma findOne_run (id : Z) (w : World) :
  TodosService.findOne id w
  = match find (todo_by_id id) (todoRepository w) with
    | Some todo => (Ok todo, w)
    | None => (Throw (NotFoundException "Todo not found"), w)
    end.
Proof.
  unfold TodosService.findOne, TodosService.findOne_id, bind, ret, throw.
  fold (todo_by_id id). destruct (find (todo_by_id id) (todoRepository w)); reflexivity.
Qed.

Lemma after_create_todos (createTodoDto : CreateTodoDto.t) (user : TokenPayload.t)
  (w : World) :
  todoRepository (after (TodosService.create createTodoDto user) w)
  = (todoRepository w ++ [created createTodoDto user w])%list.
Proof. reflexivity. Qed.

(** The counter of the table is above the id of every stored row. *)
Definition counter_above (w : World) : Prop :=
  forall t, In t (todoRepository w) -> TodoEntity.id t < todos_auto_increment w.

Lemma after_create_counter (createTodoDto : CreateTodoDto.t) (user : TokenPayload.t)
  (w : World) :
  todos_auto_increment (after (TodosService.create createTodoDto user) w)
  = todos_auto_increment w + 1.
Proof. reflexivity. Qed.

(** X14: a todo is created for its caller and for nobody else: after
    [create], the caller's list is the list before followed by the new row
    (the dto's title and description, the caller's id as [user_id]), and
    the list of every caller with another id is what it was. *)
Theorem create_then_findAll (createTodoDto : CreateTodoDto.t)
  (user : TokenPayload.t) (w : World) :
  fst (TodosService.findAll user (after (TodosService.create createTodoDto user) w))
  = Ok (filter (owned_by user) (todoRepository w) ++ [created createTodoDto user w])%list
  /\ (forall other,
        TokenPayload.id other <> TokenPayload.id user ->
        fst (TodosService.findAll other
               (after (TodosService.create createTodoDto user) w))
        = fst (TodosService.findAll other w)).
Proof.
  split.
  - unfold TodosService.findAll, TodosService.find_user_id. cbn [fst].
    rewrite after_create_todos, filter_app. fold (owned_by user). cbn [filter].
    unfold owned_by at 2. cbn [created TodoEntity.user_id]. rewrite Z.eqb_refl.
    reflexivity.
  - intros other Hother.
    unfold TodosService.findAll, TodosService.find_user_id. cbn [fst].
    rewrite after_create_todos, filter_app. cbn [filter created TodoEntity.user_id].
    destruct (Z.eqb_spec (TokenPayload.id user) (TokenPayload.id other)) as [E|_].
    + exfalso. apply Hother. symmetry. exact E.
    + rewrite app_nil_r. reflexivity.
Qed.

(** X15: while the table's counter is above every stored id, the id a
    [create] generates is new: after [create], [findOne] of that id (the
    value the counter had) returns the row just stored, every id found
    before is still found with the same row, and the counter is again
    above every stored id; a [remove] leaves the counter where it was and
    above every stored id, so an id is never generated twice. *)
Theorem create_then_findOne (createTodoDto : CreateTodoDto.t)
  (user : TokenPayload.t) (w : World) :
  counter_above w ->
  fst (TodosService.findOne (todos_auto_increment w)
         (after (TodosService.create createTodoDto user) w))
  = Ok (created createTodoDto user w)
  /\ (forall id todo,
        find (todo_by_id id) (todoRepository w) = Some todo ->
        fst (TodosService.findOne id
               (after (TodosService.create createTodoDto user) w))
        = Ok todo)
  /\ counter_above (after (TodosService.create createTodoDto user) w)
  /\ (forall id,
        todos_auto_increment (after (TodosService.remove id) w)
        = todos_auto_increment w
        /\ counter_above (after (TodosService.remove id) w)).
Proof.
  intros Habove. split; [|split; [|split]].
  - rewrite findOne_run, after_create_todos, find_snoc, find_none_all.
    + unfold todo_by_id at 1. cbn [created TodoEntity.id]. rewrite Z.eqb_refl.
      reflexivity.
    + intros t Ht. unfold todo_by_id. apply Z.eqb_neq.
      pose proof (Habove t Ht). lia.
  - intros id todo Hfound.
    rewrite findOne_run, after_create_todos, find_snoc, Hfound. reflexivity.
  - intros t. rewrite after_create_todos, after_create_counter, in_app_iff.
    intros [Ht | [<- | []]].
    + pose proof (Habove t Ht). lia.
    + cbn [created TodoEntity.id]. lia.
  - intros id. unfold after. rewrite remove_run.
    destruct (find (todo_by_id id) (todoRepository w)) as [found|].
    + split; [reflexivity|]. intros t. cbn [snd todoRepository with_todos
        todos_auto_increment]. unfold deleted. rewrite filter_In.
      intros [Ht _]. exact (Habove t Ht).
    + split; [reflexivity | exact Habove].
Qed.

Lemma find_unique (todos : list TodoEntity.t) (todo : TodoEntity.t) :
  NoDup (map TodoEntity.id todos) ->
  In todo todos ->
  find (todo_by_id (TodoEntity.id todo)) todos = Some todo.
Proof.
  induction todos as [|a todos IH]; simpl; intros Hnd Hin; [contradiction|].
  inversion Hnd as [|x l Hnotin Hnd']; subst.
  unfold todo_by_id at 1.
  destruct Hin as [-> | Hin].
  - rewrite Z.eqb_refl. reflexivity.
  - destruct (Z.eqb_spec (TodoEntity.id a) (TodoEntity.id todo)) as [E|_].
    + exfalso. apply Hnotin. rewrite E. apply in_map. exact Hin.
    + apply IH; assumption.
Qed.

(** X16: [findOne] reads by id alone: it throws
    [NotFoundException('Todo not found')] when no row has the id, and when
    the ids of the table are distinct it returns any stored todo asked for
    by its id, whatever its [user_id]; it changes nothing. *)
Theorem findOne_by_id_alone (w : World) :
  (forall id,
      (forall t, In t (todoRepository w) -> TodoEntity.id t <> id) ->
      TodosService.findOne id w = (Throw (NotFoundException "Todo not found"), w))
  /\ (NoDup (map TodoEntity.id (todoRepository w)) ->
      forall todo,
        In todo (todoRepository w) ->
        TodosService.findOne (TodoEntity.id todo) w = (Ok todo, w)).
Proof.
  split.
  - intros id Habsent. rewrite findOne_run, (find_absent _ _ Habsent). reflexivity.
  - intros Hnd todo Hin. rewrite findOne_run, (find_unique _ _ Hnd Hin). reflexivity.
Qed.

Lemma find_deleted (id : Z) (todos : list TodoEntity.t) :
  find (todo_by_id id) (deleted id todos) = None.
Proof.
  apply find_none_all. intros t Ht. unfold todo_by_id.
  apply Z.eqb_neq. exact (deleted_has_none _ _ _ Ht).
Qed.

Lemma find_deleted_other (id id' : Z) (todos : list TodoEntity.t) :
  id' <> id ->
  find (todo_by_id id') (deleted id todos) = find (todo_by_id id') todos.
Proof.
  intros Hne. unfold deleted. apply find_filter_kept.
  intros t Ht. unfold todo_by_id in Ht. apply Z.eqb_eq in Ht.
  apply negb_true_iff. apply Z.eqb_neq. lia.
Qed.

Lemma after_remove_todos (id : Z) (w : World) :
  todoRepository (after (TodosService.remove id) w)
  = match find (todo_by_id id) (todoRepository w) with
    | Some _ => deleted id (todoRepository w)
    | None => todoRepository w
    end.
Proof.
  unfold after. rewrite remove_run.
  destruct (find (todo_by_id id) (todoRepository w)); reflexivity.
Qed.

(** X17: a removed todo is gone and nothing else is: after [remove] of an
    id, whether it succeeded or threw, [findOne] of that id and a second
    [remove] of it throw [NotFoundException('Todo not found')], while
    [findOne] of every other id answers as before. *)
Theorem remove_then_gone (id : Z) (w : World) :
  fst (TodosService.findOne id (after (TodosService.remove id) w))
  = Throw (NotFoundException "Todo not found")
  /\ fst (TodosService.remove id (after (TodosService.remove id) w))
     = Throw (NotFoundException "Todo not found")
  /\ (forall id',
        id' <> id ->
        fst (TodosService.findOne id' (after (TodosService.remove id) w))
        = fst (TodosService.findOne id' w)).
Proof.
  assert (Hgone : find (todo_by_id id)
                    (todoRepository (after (TodosService.remove id) w)) = None).
  { rewrite after_remove_todos.
    destruct (find (todo_by_id id) (todoRepository w)) eqn:Hf;
      [apply find_deleted | exact Hf]. }
  split; [|split].
  - rewrite findOne_run, Hgone. reflexivity.
  - rewrite remove_run, Hgone. reflexivity.
  - intros id' Hne. rewrite !findOne_run, after_remove_todos.
    destruct (find (todo_by_id id) (todoRepository w)).
    + rewrite (find_deleted_other _ _ _ Hne).
      destruct (find (todo_by_id id') (todoRepository w)); reflexivity.
    + destruct (find (todo_by_id id') (todoRepository w)); reflexivity.
Qed.

Section AnyDto.

Variable UpdateTodoDto : Type.
Variable assign : UpdateTodoDto -> TodoEntity.t -> TodoEntity.t.
Variable writes_column : UpdateTodoDto -> bool.

Lemma find_updated (id id' : Z) (dto : UpdateTodoDto) (todos : list TodoEntity.t) :
  (forall d t, TodoEntity.id (assign d t) = TodoEntity.id t) ->
  find (todo_by_id id') (updated UpdateTodoDto assign id dto todos)
  = option_map (fun t => if TodoEntity.id t =? id then assign dto t else t)
      (find (todo_by_id id') todos).
Proof.
  intros Hkeep. unfold updated. apply find_map_same_key.
  intros t. unfold todo_by_id.
  destruct (TodoEntity.id t =? id); [rewrite Hkeep|]; reflexivity.
Qed.

(** X18: when the columns a dto writes leave the id alone, a successful
    [update] is seen by the next [findOne] and by nothing else: [findOne]
    of the id returns the row found before with the dto's columns written
    into it, [findOne] of every other id answers as before, and the table
    keeps its number of rows. *)
Theorem update_then_findOne (id : Z) (dto : UpdateTodoDto) (w : World)
  (result : JsValue) (w' : World) :
  (forall d t, TodoEntity.id (assign d t) = TodoEntity.id t) ->
  TodosService.update UpdateTodoDto assign writes_column id dto w = (Ok result, w') ->
  (exists todo,
      find (todo_by_id id) (todoRepository w) = Some todo
      /\ TodosService.findOne id w' = (Ok (assign dto todo), w'))
  /\ (forall id',
        id' <> id ->
        fst (TodosService.findOne id' w') = fst (TodosService.findOne id' w))
  /\ List.length (todoRepository w') = List.length (todoRepository w).
Proof.
  intros Hkeep. rewrite update_run.
  destruct (find (todo_by_id id) (todoRepository w)) as [todo|] eqn:Hf;
    [|intros H; discriminate H].
  destruct (writes_column dto); [|intros H; discriminate H].
  intros H. inversion H; subst; clear H.
  split; [|split].
  - exists todo. split; [reflexivity|].
    rewrite findOne_run. cbn [todoRepository with_todos].
    rewrite (find_updated _ _ _ _ Hkeep), Hf. cbn [option_map].
    apply find_some in Hf. destruct Hf as [_ Hid]. unfold todo_by_id in Hid.
    rewrite Hid. reflexivity.
  - intros id' Hne. rewrite !findOne_run. cbn [todoRepository with_todos].
    rewrite (find_updated _ _ _ _ Hkeep).
    destruct (find (todo_by_id id') (todoRepository w)) as [t|] eqn:Hf';
      [|reflexivity].
    cbn [option_map]. apply find_some in Hf'. destruct Hf' as [_ Hid'].
    unfold todo_by_id in Hid'. apply Z.eqb_eq in Hid'.
    destruct (Z.eqb_spec (TodoEntity.id t) id); [lia | reflexivity].
  - cbn [todoRepository with_todos]. unfold updated. apply length_map.
Qed.

End AnyDto.
End TodoStoreProofs.

(** ** The properties on the small store *)

Module Scenarios.
Import TokenModel AuthProofs TokenProofs TodosProofs RegistrationProofs
  SessionProofs TodoStoreProofs.

Definition alicia_dto : CreateUserDto :=
  {| create_name := "Alicia"; create_email := "test@example.com";
     create_password := "hunter2" |}.

Definition bob_dto : CreateUserDto :=
  {| create_name := "Bob"; create_email := "bob@example.com";
     create_password := "correct horse" |}.

Lemma create_then_findUserById_witness :
  UsersService.findUserById 2 (after_create toy_hash alicia_dto demo_world)
  = (Ok alicia, after_create toy_hash alicia_dto demo_world)
  /\ UsersService.findUserById 1 (after_create toy_hash alicia_dto demo_world)
     = (Ok alice, after_create toy_hash alicia_dto demo_world).
Proof.
  destruct (create_then_findUserById toy_hash alicia_dto demo_world) as [Hnew Hold].
  split; [exact Hnew|]. apply (Hold 1 alice). reflexivity.
Defined.

Lemma create_then_credentials_witness :
  UsersService.findUserByEmailAndPassword toy_compare "bob@example.com" "correct horse"
    (after_create toy_hash bob_dto demo_world)
  = (Ok (registered toy_hash bob_dto demo_world), after_create toy_hash bob_dto demo_world).
Proof.
  apply (create_then_credentials toy_hash toy_compare bob_dto demo_world).
  - intros u [<- | []]. simpl. intros H. discriminate H.
  - reflexivity.
Defined.

Lemma create_keeps_stored_logins_witness :
  fst (demo_login "test@example.com" "hunter2"
         (after_create toy_hash alicia_dto demo_world))
  = fst (demo_login "test@example.com" "hunter2" demo_world).
Proof.
  apply (create_keeps_stored_logins (Token := Token) toy_hash toy_compare demo_config
           alicia_dto
           {| login_email := "test@example.com"; login_password := "hunter2" |}
           demo_world alice).
  reflexivity.
Defined.

Lemma refreshToken_keeps_identity_witness :
  exists payload user,
    check 1000 (issue 900 alice_payload "refresh-secret" 604800) "refresh-secret"
    = Ok payload
    /\ In user [alice]
    /\ UserEntity.id user = TokenPayload.id payload
    /\ sign_with 1000
         {| TokenPayload.id := TokenPayload.id payload;
            TokenPayload.email := UserEntity.email user |}
         {| secret := "access-secret"; expiresIn := "1m" |}
       = Ok (issue 1000 alice_payload "access-secret" 60).
Proof.
  exact (refreshToken_keeps_identity demo_config
           (issue 900 alice_payload "refresh-secret" 604800) demo_world
           {| RefreshResult.accessToken := issue 1000 alice_payload "access-secret" 60 |}
           (with_issued demo_world
              [(alice_payload, {| secret := "access-secret"; expiresIn := "1m" |})])
           eq_refl).
Defined.

(** The small store eight days later. *)
Definition week_later : World :=
  {| now := 1000 + 8 * 86400; usersRepository := [alice]; todoRepository := [];
     todos_auto_increment := 1; issued := []; console := [] |}.

Lemma login_then_refresh_witness :
  fst (AuthService.refreshToken demo_config
         (issue 1000 alice_payload "refresh-secret" 604800) week_later)
  = Throw invalid_refresh_token.
Proof.
  destruct (login_then_refresh toy_compare demo_config
              {| login_email := "test@example.com"; login_password := "password123" |}
              demo_world _ _ login_alice) as (user & _ & _ & Hlate & _).
  apply (Hlate week_later). simpl. lia.
Defined.

Definition milk : CreateTodoDto.t :=
  {| CreateTodoDto.title := "Milk"; CreateTodoDto.description := "Two litres" |}.

Definition caller_two : TokenPayload.t :=
  {| TokenPayload.id := 2; TokenPayload.email := "two@example.com" |}.

Lemma create_then_findAll_witness :
  fst (TodosService.findAll caller_one
         (after (TodosService.create milk caller_one) todo_world))
  = Ok [laundry; created milk caller_one todo_world]
  /\ fst (TodosService.findAll caller_two
            (after (TodosService.create milk caller_one) todo_world))
     = fst (TodosService.findAll caller_two todo_world).
Proof.
  destruct (create_then_findAll milk caller_one todo_world) as [Hown Hother].
  split; [exact Hown|]. apply (Hother caller_two). simpl. lia.
Defined.

Lemma todo_world_counter_above : counter_above todo_world.
Proof. intros t Ht. destruct Ht as [<- | [<- | []]]; simpl; lia. Qed.

(** The small table after its highest todo was removed: the counter still
    holds 12. *)
Definition after_laundry : World := after (TodosService.remove 11) todo_world.

Example create_after_remove :
  todoRepository (after (TodosService.create milk caller_one) after_laundry)
  = [groceries;
     {| TodoEntity.id := 12; TodoEntity.title := "Milk";
        TodoEntity.description := "Two litres"; TodoEntity.user_id := 1;
        TodoEntity.created_at := 1000 |}]
  /\ fst (TodosService.findOne 11
            (after (TodosService.create milk caller_one) after_laundry))
     = Throw (NotFoundException "Todo not found").
Proof. split; reflexivity. Qed.

Lemma create_then_findOne_witness :
  fst (TodosService.findOne 12
         (after (TodosService.create milk caller_one) after_laundry))
  = Ok (created milk caller_one after_laundry)
  /\ fst (TodosService.findOne 10
            (after (TodosService.create milk caller_one) after_laundry))
     = Ok groceries.
Proof.
  destruct (create_then_findOne milk caller_one todo_world todo_world_counter_above)
    as (_ & _ & _ & Hremove).
  destruct (Hremove 11) as [_ Habove].
  destruct (create_then_findOne milk caller_one after_laundry Habove)
    as (Hnew & Hold & _).
  split; [exact Hnew|]. apply (Hold 10 groceries). reflexivity.
Defined.

Lemma findOne_by_id_alone_witness :
  TodosService.findOne 12 todo_world
  = (Throw (NotFoundException "Todo not found"), todo_world)
  /\ TodosService.findOne 10 todo_world = (Ok groceries, todo_world).
Proof.
  destruct (findOne_by_id_alone todo_world) as [Habsent Hfound].
  split.
  - apply (Habsent 12). intros u Hu. destruct Hu as [<- | [<- | []]]; simpl; lia.
  - assert (Hids : NoDup (map TodoEntity.id (todoRepository todo_world))).
    { simpl. constructor.
      - intros [H | []]. discriminate H.
      - constructor; [intros [] | constructor]. }
    apply (Hfound Hids groceries). left. reflexivity.
Defined.

Lemma remove_then_gone_witness :
  fst (TodosService.findOne 10 (after (TodosService.remove 10) todo_world))
  = Throw (NotFoundException "Todo not found")
  /\ fst (TodosService.findOne 11 (after (TodosService.remove 10) todo_world))
     = fst (TodosService.findOne 11 todo_world).
Proof.
  destruct (remove_then_gone 10 todo_world) as (Hgone & _ & Hother).
  split; [exact Hgone|]. apply (Hother 11). lia.
Defined.

Lemma update_then_findOne_witness :
  (exists todo,
      find (todo_by_id 10) (todoRepository todo_world) = Some todo
      /\ TodosService.findOne 10
           (with_todos todo_world [assign_partial retitle groceries; laundry])
         = (Ok (assign_partial retitle todo),
            with_todos todo_world [assign_partial retitle groceries; laundry]))
  /\ fst (TodosService.findOne 11
            (with_todos todo_world [assign_partial retitle groceries; laundry]))
     = fst (TodosService.findOne 11 todo_world).
Proof.
  destruct (update_then_findOne PartialTodo assign_partial writes_partial 10 retitle
              todo_world
              (message_object "Todo updated successfully")
              (with_todos todo_world [assign_partial retitle groceries; laundry])
              (fun d t => eq_refl) eq_refl) as (Hseen & Hother & _).
  split; [exact Hseen|]. apply (Hother 11). lia.
Defined.

End Scenarios.
